(** * pyod.utils.data: synthetic data, colour codes, evaluation summary

    A shallow embedding of [pyod/utils/data.py].

    - Python [int] is [Z]; a Python/numpy float is an exact rational [Q].
      The rounding and the range of binary64 arithmetic are not modelled:
      [n_train * contamination] is the exact product, so the counts are
      those of the source wherever the rounded product has the same integer
      part (it has not for 100 * 0.29, whose binary64 product is just
      below 29), and no conversion of a huge integer to a float overflows.
    - An array of shape (n, 2) is a [list (Q * Q)], one pair per row; an array
      of labels or scores is an [ndarray]: a shape and its row-major data.
    - The process-wide random source of [np.random] is an explicit
      [RandomState] threaded through [generate_data]; standard output is an
      explicit list of printed lines threaded through [evaluate_print].
    - A raised exception is the [Raise] result of a state-and-error monad. *)

From Stdlib Require Import String Ascii ZArith QArith List Lia Bool Lqa.
From Stdlib Require Import Qround DecimalString.
Import ListNotations.

Local Open Scope Z_scope.

(* ================================================================== *)
(** ** Exceptions and the state-and-error monad *)

Inductive exn : Type :=
| ValueError.

Inductive Result (A : Type) : Type :=
| Ok (a : A)
| Raise (e : exn).

Arguments Ok {A} a.
Arguments Raise {A} e.

(** A computation over a state [S]: the state survives a raised exception
    (random draws made and lines printed before it stay made). *)
Definition M (S A : Type) : Type := S -> Result A * S.

Definition ret {S A : Type} (a : A) : M S A := fun s => (Ok a, s).

Definition raise {S A : Type} (e : exn) : M S A := fun s => (Raise e, s).

Definition bind {S A B : Type} (m : M S A) (k : A -> M S B) : M S B :=
  fun s =>
    match m s with
    | (Ok a, s') => k a s'
    | (Raise e, s') => (Raise e, s')
    end.

Definition lift {S A : Type} (r : Result A) : M S A := fun s => (r, s).

Declare Scope py_scope.
Delimit Scope py_scope with py.
Notation "x <- m ;; k" := (bind m (fun x => k))
  (at level 100, m at next level, right associativity) : py_scope.
Notation "' p <- m ;; k" := (bind m (fun x => match x with p => k end))
  (at level 100, p pattern, m at next level, right associativity) : py_scope.

(* ================================================================== *)
(** ** Python built-ins *)

Module Py.

(** [int(x)] of a float: truncation toward zero. *)
Definition int (x : Q) : Z := Z.quot (Qnum x) (Zpos (Qden x)).

(** [a // b] on integers: floor division. *)
Definition floordiv (a b : Z) : Z := Z.div a b.

(** What a Python function hands back to its caller, as far as this module
    needs it: [None] or a string. *)
Inductive value : Type :=
| None_
| Str (s : string).

(** The start index of a slice [a[start:]] over a sequence of length [len],
    as [slice.indices] computes it. *)
Definition slice_start (start : Z) (len : nat) : nat :=
  let n := Z.of_nat len in
  let s := if start <? 0 then start + n else start in
  Z.to_nat (if s <? 0 then 0 else if n <? s then n else s).

End Py.

(* ================================================================== *)
(** ** numpy *)

Module Numpy.

(** An array of numbers: its shape and its elements in row-major order. *)
Record ndarray : Type := mkArr { shape : list nat; data : list Q }.

(** [np.zeros(shp)]. *)
Definition zeros (shp : list nat) : ndarray :=
  mkArr shp (repeat 0%Q (fold_right Nat.mul 1%nat shp)).

(** [a.ravel()]. *)
Definition ravel (a : ndarray) : ndarray :=
  mkArr [length (data a)] (data a).

(** [len(a)]: the size of the first axis. *)
Definition len (a : ndarray) : nat := hd 0%nat (shape a).

(** [a[start:, ] = v]: every row from [start] on is filled with [v]. *)
Definition setitem_from (start : Z) (v : Q) (a : ndarray) : ndarray :=
  let width := fold_right Nat.mul 1%nat (tl (shape a)) in
  let k := (Py.slice_start start (len a) * width)%nat in
  mkArr (shape a)
        (firstn k (data a) ++ repeat v (length (data a) - k)%nat).

(** [np.r_[A, B]] on arrays of shape (_, 2): the rows of [A], then of [B]. *)
Definition r_ (A B : list (Q * Q)) : list (Q * Q) := A ++ B.

(** [np.full([n], v)]. *)
Definition full {T : Type} (n : nat) (v : T) : list T := repeat v n.

(** [np.where(y == v)] on a flat array: the indices, in increasing order,
    of the entries equal to [v]. *)
Fixpoint where_eq_from (i : nat) (v : Q) (y : list Q) : list nat :=
  match y with
  | [] => []
  | x :: y' =>
      if Qeq_bool x v then i :: where_eq_from (S i) v y'
      else where_eq_from (S i) v y'
  end.

Definition where_eq (v : Q) (y : list Q) : list nat := where_eq_from 0 v y.

(** [c[i] = v] for one index inside the array. *)
Fixpoint setitem {T : Type} (i : nat) (v : T) (c : list T) : list T :=
  match c, i with
  | [], _ => []
  | _ :: c', O => v :: c'
  | x :: c', S i' => x :: setitem i' v c'
  end.

(** [c[ind] = v] for an index array [ind]. *)
Definition setitem_indices {T : Type} (ind : list nat) (v : T) (c : list T)
  : list T :=
  fold_left (fun acc i => setitem i v acc) ind c.

(** *** The random source

    The Mersenne Twister is not modelled: the state carries the normal
    deviates and the raw 53-bit integers it will hand out, and how many of
    each have been consumed. *)
Record RandomState : Type := mkRandomState {
  gauss_tape : nat -> Q;
  raw_tape : nat -> Z;
  gauss_drawn : nat;
  raw_drawn : nat
}.

(** One standard normal deviate. *)
Definition rk_gauss (s : RandomState) : Q * RandomState :=
  (gauss_tape s (gauss_drawn s),
   mkRandomState (gauss_tape s) (raw_tape s) (S (gauss_drawn s)) (raw_drawn s)).

(** One double in [0, 1): a 53-bit integer over 2^53. *)
Definition rk_double (s : RandomState) : Q * RandomState :=
  (Qmake (raw_tape s (raw_drawn s) mod 2 ^ 53) (2 ^ 53)%positive,
   mkRandomState (gauss_tape s) (raw_tape s) (gauss_drawn s) (S (raw_drawn s))).

(** [n] rows of two draws each, filled in row-major order. *)
Fixpoint fill_rows (draw : RandomState -> Q * RandomState) (n : nat)
  (s : RandomState) : list (Q * Q) * RandomState :=
  match n with
  | O => ([], s)
  | S n' =>
      let (a, s1) := draw s in
      let (b, s2) := draw s1 in
      let (rows, s3) := fill_rows draw n' s2 in
      ((a, b) :: rows, s3)
  end.

(** [np.random.randn(d0, 2)]: a negative dimension raises [ValueError]. *)
Definition randn (d0 : Z) : M RandomState (list (Q * Q)) :=
  fun s =>
    if d0 <? 0 then (Raise ValueError, s)
    else let (rows, s') := fill_rows rk_gauss (Z.to_nat d0) s in (Ok rows, s').

(** One draw of [np.random.uniform(low, high)]. *)
Definition rk_uniform (low high : Q) (s : RandomState) : Q * RandomState :=
  let (u, s') := rk_double s in ((low + (high - low) * u)%Q, s').

(** [np.random.uniform(low, high, size=(d0, 2))]. *)
Definition uniform (low high : Q) (d0 : Z) : M RandomState (list (Q * Q)) :=
  fun s =>
    if d0 <? 0 then (Raise ValueError, s)
    else let (rows, s') := fill_rows (rk_uniform low high) (Z.to_nat d0) s in
         (Ok rows, s').

(** [a * X + b], elementwise on an array of shape (_, 2). *)
Definition affine (a b : Q) (X : list (Q * Q)) : list (Q * Q) :=
  map (fun r => ((a * fst r + b)%Q, (a * snd r + b)%Q)) X.

(** Rounding to the nearest integer, ties to the even one. *)
Definition rint (x : Q) : Z :=
  let f := Qfloor x in
  let r := (x - inject_Z f)%Q in
  match (r ?= 1 # 2)%Q with
  | Lt => f
  | Gt => f + 1
  | Eq => if Z.even f then f else f + 1
  end.

(** [np.round(x, decimals=4)], kept as the integer count of 1/10000. *)
Definition round4 (x : Q) : Z := rint (x * 10000)%Q.

End Numpy.

Import Numpy.

(* ================================================================== *)
(** ** scikit-learn *)

Module Sklearn.

(** [column_or_1d(y)]: a 1-d array, or a 2-d array with one column, is
    returned ravelled; any other shape raises [ValueError]. *)
Definition column_or_1d (y : ndarray) : Result ndarray :=
  match shape y with
  | [_] => Ok (ravel y)
  | [_; 1%nat] => Ok (ravel y)
  | _ => Raise ValueError
  end.

(** [check_X_y(X, y)] with its defaults, on an [X] of shape (_, 2): [X]
    needs at least one sample, [y] is brought to one dimension, and the two
    must have as many samples. *)
Definition check_X_y (X : list (Q * Q)) (y : ndarray)
  : Result (list (Q * Q) * ndarray) :=
  if (length X <? 1)%nat then Raise ValueError
  else
    match column_or_1d y with
    | Raise e => Raise e
    | Ok y1 =>
        if (length X =? len y1)%nat then Ok (X, y1) else Raise ValueError
    end.

Definition is_label (v x : Q) : bool := Qeq_bool x v.

(** The scores of the samples whose label is (not) 1. *)
Fixpoint scores_of (positive : bool) (y score : list Q) : list Q :=
  match y, score with
  | l :: y', s :: score' =>
      if Bool.eqb (is_label 1 l) positive
      then s :: scores_of positive y' score'
      else scores_of positive y' score'
  | _, _ => []
  end.

(** Twice the number of (positive, negative) pairs ranked in the right
    order, a tie counting for half a pair. *)
Definition pair_credit (p n : Q) : Z :=
  match (p ?= n)%Q with
  | Gt => 2
  | Eq => 1
  | Lt => 0
  end.

Definition concordance (pos neg : list Q) : Z :=
  fold_right
    (fun p acc => fold_right (fun n acc' => pair_credit p n + acc') acc neg)
    0 pos.

(** [roc_auc_score(y_true, y_score)] for labels 0/1: the area under the ROC
    curve, which is the share of (positive, negative) pairs that the scores
    rank correctly.  It raises [ValueError] when the two arrays differ in
    length and when only one class is present in [y_true].  Ground truths
    with a label other than 0 and 1 are outside this model, which lets them
    raise as well (scikit-learn takes some other pairs of classes). *)
Definition roc_auc_score (y_true y_score : ndarray) : Result Q :=
  let y := data y_true in
  let s := data y_score in
  if negb (length y =? length s)%nat then Raise ValueError
  else if negb (forallb (fun l => is_label 0 l || is_label 1 l) y)
  then Raise ValueError
  else
    let pos := scores_of true y s in
    let neg := scores_of false y s in
    if (length pos =? 0)%nat || (length neg =? 0)%nat then Raise ValueError
    else Ok (Qmake (concordance pos neg)
                   (Pos.of_nat (2 * length pos * length neg))).

End Sklearn.

Import Sklearn.

(* ================================================================== *)
(** ** pyod.utils.utility *)

Module Utility.

(** Insertion of a (label, score) pair in front of a list of later samples
    sorted by score, highest first: the new pair goes before the samples it
    ties with, so equal scores keep their original order. *)
Fixpoint insert_desc (x : Q * Q) (l : list (Q * Q)) : list (Q * Q) :=
  match l with
  | [] => [x]
  | h :: t =>
      if Qle_bool (snd h) (snd x) then x :: h :: t else h :: insert_desc x t
  end.

Definition rank_desc (l : list (Q * Q)) : list (Q * Q) :=
  fold_right insert_desc [] l.

(** Modelled from the spec: [precision_n_scores] of [pyod.utils.utility],
    which is not under src/.  With [n] the number of labels equal to 1, the
    samples are ranked by score, highest first and stably, and the result
    is the fraction of the top [n] whose label is 1. *)
Definition precision_n_scores (y y_pred : ndarray) : Result Q :=
  let labels := data y in
  let scores := data y_pred in
  if negb (length labels =? length scores)%nat then Raise ValueError
  else
    let n := length (filter (is_label 1) labels) in
    let top := firstn n (rank_desc (combine labels scores)) in
    let hits := length (filter (fun ls => is_label 1 (fst ls)) top) in
    Ok (Qmake (Z.of_nat hits) (Pos.of_nat n)).

End Utility.

Import Utility.

(* ================================================================== *)
(** ** pyod/utils/data.py *)

(** What [generate_data] returns: a tuple of two arrays, or of four. *)
Inductive generated : Type :=
| Tuple2 (X_train : list (Q * Q)) (y_train : ndarray)
| Tuple4 (X_train : list (Q * Q)) (y_train : ndarray)
         (X_test : list (Q * Q)) (y_test : ndarray).

(** [generate_data(n_train, n_test, contamination, train_only)].  The four
    counts are integers ([int] of an integer is that integer) and are all
    computed first, also under [train_only]; in exact arithmetic computing
    them cannot fail.  The draws are
    made in the order of the source: first sub-cluster, second sub-cluster,
    outliers, for the training split and then, unless [train_only], for the
    test split. *)
Definition generate_data (n_train n_test : Z) (contamination : Q)
  (train_only : bool) : M RandomState generated :=
  let n_outliers := Py.int (inject_Z n_train * contamination) in
  let n_inliers := n_train - n_outliers in
  let n_outliers_test := Py.int (inject_Z n_test * contamination) in
  let n_inliers_test := n_test - n_outliers_test in
  let offset := 2%Q in
  (* generate inliers *)
  (G1 <- randn (Py.floordiv n_inliers 2) ;;
   let X1 := affine (3 # 10) (- offset) G1 in
   G2 <- randn (Py.floordiv n_inliers 2) ;;
   let X2 := affine (3 # 10) offset G2 in
   let X_train := r_ X1 X2 in
   (* generate outliers *)
   U <- uniform (-6) 6 n_outliers ;;
   let X_train := r_ X_train U in
   (* generate target *)
   let y_train := zeros [length X_train; 1%nat] in
   let y_train := setitem_from n_inliers 1 y_train in
   ' (X_train, y_train) <- lift (check_X_y X_train (ravel y_train)) ;;
   if train_only then ret (Tuple2 X_train y_train)
   else
     (* generate test data *)
     G1_test <- randn (Py.floordiv n_inliers_test 2) ;;
     let X1_test := affine (3 # 10) (- offset) G1_test in
     G2_test <- randn (Py.floordiv n_inliers_test 2) ;;
     let X2_test := affine (3 # 10) offset G2_test in
     let X_test := r_ X1_test X2_test in
     (* generate outliers *)
     U_test <- uniform (-8) 8 n_outliers_test ;;
     let X_test := r_ X_test U_test in
     let y_test := zeros [length X_test; 1%nat] in
     let y_test := setitem_from n_inliers_test 1 y_test in
     ' (X_test, y_test) <- lift (check_X_y X_test (ravel y_test)) ;;
     ret (Tuple4 X_train y_train X_test y_test))%py.

(** The colour codes: inliers (0) blue, outliers (1) red. *)
Definition _get_color_codes (y : ndarray) : Result (list string) :=
  match column_or_1d y with
  | Raise e => Raise e
  | Ok y =>
      (* inliers are assigned blue *)
      let c := full (len y) "b"%string in
      let outliers_ind := where_eq 1 (data y) in
      (* outlier are assigned red *)
      Ok (setitem_indices outliers_ind "r"%string c)
  end.

(** *** Rendering a rounded metric *)

Definition digit (d : Z) : string :=
  String (ascii_of_nat (48 + Z.to_nat d)) EmptyString.

(** The decimals of [f / 10000], for [0 <= f < 10000], without trailing
    zeros but with at least one digit. *)
Definition decimals4 (f : Z) : string :=
  let d1 := digit (f / 1000) in
  let d2 := digit (f / 100 mod 10) in
  let d3 := digit (f / 10 mod 10) in
  let d4 := digit (f mod 10) in
  if negb (f mod 10 =? 0) then (d1 ++ d2 ++ d3 ++ d4)%string
  else if negb (f mod 100 =? 0) then (d1 ++ d2 ++ d3)%string
  else if negb (f mod 1000 =? 0) then (d1 ++ d2)%string
  else d1.

(** How a float that is [k / 10000] is written out by [str]: [7500] is
    ["0.75"], [10000] is ["1.0"]. *)
Definition str_round4 (k : Z) : string :=
  let a := Z.abs k in
  let sign := if k <? 0 then "-"%string else ""%string in
  let whole := NilZero.string_of_uint (N.to_uint (Z.to_N (a / 10000))) in
  (sign ++ whole ++ "." ++ decimals4 (a mod 10000))%string.

(** [print(line)]: one more line on standard output. *)
Definition print (line : string) : M (list string) unit :=
  fun out => (Ok tt, out ++ [line]).

Definition evaluate_print (clf_name : string) (y y_pred : ndarray)
  : M (list string) Py.value :=
  (y <- lift (column_or_1d y) ;;
   y_pred <- lift (column_or_1d y_pred) ;;
   roc <- lift (roc_auc_score y y_pred) ;;
   prn <- lift (precision_n_scores y y_pred) ;;
   _ <- print (clf_name ++ " ROC:" ++ str_round4 (round4 roc)
               ++ ", precision @ rank n:" ++ str_round4 (round4 prn))%string ;;
   ret Py.None_)%py.

(** The line the format string of [evaluate_print] describes. *)
Definition summary_line (clf_name : string) (roc prn : Q) : string :=
  (clf_name ++ " ROC:" ++ str_round4 (round4 roc)
   ++ ", precision @ rank n:" ++ str_round4 (round4 prn))%string.

(** *** The charting calls of [visualize]

    matplotlib is not interpreted: each call [visualize] makes to it is
    recorded, with its arguments, on the figure log the function threads. *)

(** [Line2D([0], [0], marker=..., color=..., label=..., markerfacecolor=...,
    markersize=...)]. *)
Record Line2D : Type := mkLine2D {
  xdata : list Z;
  ydata : list Z;
  marker : string;
  color : string;
  label : string;
  markerfacecolor : string;
  markersize : Z
}.

(** The [c=] argument of [plt.scatter]: colour codes, or an array of values. *)
Inductive colors : Type :=
| Codes (c : list string)
| Values (v : ndarray).

Inductive plt_call : Type :=
| Figure (width height : Z)
| Suptitle (t : string)
| AddSubplot (pos : Z)
| Scatter (x y : list Q) (c : colors)
| Title (t : string)
| Legend (handles : list Line2D) (loc : Z)
| Savefig (fname : string) (dpi : Z)
| Show.

Definition plt (call : plt_call) : M (list plt_call) unit :=
  fun log => (Ok tt, log ++ [call]).

(** [X[:, 0]] and [X[:, 1]] of an array of shape (_, 2). *)
Definition column0 (X : list (Q * Q)) : list Q := map fst X.
Definition column1 (X : list (Q * Q)) : list Q := map snd X.

Definition visualize (clf_name : string)
  (X_train : list (Q * Q)) (y_train : ndarray)
  (X_test : list (Q * Q)) (y_test : ndarray)
  (y_train_pred y_test_pred : ndarray)
  (show_figure save_figure : bool) : M (list plt_call) Py.value :=
  (c_train <- lift (_get_color_codes y_train) ;;
   c_test <- lift (_get_color_codes y_test) ;;
   _ <- plt (Figure 12 10) ;;
   _ <- plt (Suptitle ("Demo of " ++ clf_name)%string) ;;
   _ <- plt (AddSubplot 221) ;;
   _ <- plt (Scatter (column0 X_train) (column1 X_train) (Codes c_train)) ;;
   _ <- plt (Title "Train ground truth") ;;
   let legend_elements :=
     [mkLine2D [0] [0] "o" "w" "normal" "b" 8;
      mkLine2D [0] [0] "o" "w" "outlier" "r" 8] in
   _ <- plt (Legend legend_elements 4) ;;
   _ <- plt (AddSubplot 222) ;;
   _ <- plt (Scatter (column0 X_test) (column1 X_test) (Codes c_test)) ;;
   _ <- plt (Title "Test ground truth") ;;
   _ <- plt (Legend legend_elements 4) ;;
   _ <- plt (AddSubplot 223) ;;
   _ <- plt (Scatter (column0 X_train) (column1 X_train) (Values y_train_pred)) ;;
   _ <- plt (Title ("Train prediction by " ++ clf_name)%string) ;;
   let legend_elements :=
     [mkLine2D [0] [0] "o" "w" "normal" "0" 8;
      mkLine2D [0] [0] "o" "w" "outlier" "yellow" 8] in
   _ <- plt (Legend legend_elements 4) ;;
   _ <- plt (AddSubplot 224) ;;
   _ <- plt (Scatter (column0 X_test) (column1 X_test) (Values y_test_pred)) ;;
   _ <- plt (Title ("Test prediction by " ++ clf_name)%string) ;;
   _ <- plt (Legend legend_elements 4) ;;
   _ <- (if save_figure then plt (Savefig (clf_name ++ ".png")%string 300)
         else ret tt) ;;
   _ <- (if show_figure then plt Show else ret tt) ;;
   ret Py.None_)%py.

(** The calls of a figure log that put the figure somewhere: on disk or on
    screen. *)
Definition is_output (call : plt_call) : bool :=
  match call with
  | Savefig _ _ => true
  | Show => true
  | _ => false
  end.

Definition is_scatter (call : plt_call) : bool :=
  match call with
  | Scatter _ _ _ => true
  | _ => false
  end.

(** The uniform double the random source hands out at position [n] of its
    raw tape. *)
Definition double_at (s : RandomState) (n : nat) : Q :=
  Qmake (raw_tape s n mod 2 ^ 53) (2 ^ 53)%positive.

(* ================================================================== *)
(** ** Views of [generate_data] used by the proofs *)

(** The two inlier sub-clusters, as the lines [X1 = ...] and [X2 = ...] of
    [generate_data] draw them for a split with [n_inliers] inliers. *)
Definition inlier_clusters (n_inliers : Z) (offset : Q)
  : M RandomState (list (Q * Q) * list (Q * Q)) :=
  (G1 <- randn (Py.floordiv n_inliers 2) ;;
   let X1 := affine (3 # 10) (- offset) G1 in
   G2 <- randn (Py.floordiv n_inliers 2) ;;
   let X2 := affine (3 # 10) offset G2 in
   ret (X1, X2))%py.

(** One split, as [generate_data] builds the training split (bound 6) and
    then the test split (bound 8). *)
Definition split (n_inliers n_outliers : Z) (offset bound : Q)
  : M RandomState (list (Q * Q) * ndarray) :=
  (' (X1, X2) <- inlier_clusters n_inliers offset ;;
   let X := r_ X1 X2 in
   U <- uniform (- bound) bound n_outliers ;;
   let X := r_ X U in
   let y := zeros [length X; 1%nat] in
   let y := setitem_from n_inliers 1 y in
   lift (check_X_y X (ravel y)))%py.

(** The counts [generate_data] derives from its arguments. *)
Definition n_outliers_of (n : Z) (contamination : Q) : Z :=
  Py.int (inject_Z n * contamination).

Definition n_inliers_of (n : Z) (contamination : Q) : Z :=
  n - n_outliers_of n contamination.

Definition X_train_of (r : generated) : list (Q * Q) :=
  match r with
  | Tuple2 X _ => X
  | Tuple4 X _ _ _ => X
  end.

Definition y_train_of (r : generated) : ndarray :=
  match r with
  | Tuple2 _ y => y
  | Tuple4 _ y _ _ => y
  end.

(** ** Vocabulary of the statements *)

(** [np.asarray] of a flat Python list. *)
Definition array1 (l : list Q) : ndarray := mkArr [length l] l.

(** The number of entries of a label array equal to [v]. *)
Definition count_label (v : Q) (y : ndarray) : nat :=
  length (filter (is_label v) (data y)).

(** The closed square [-b, b] x [-b, b]. *)
Definition in_square (b : Q) (p : Q * Q) : Prop :=
  ((- b <= fst p /\ fst p <= b) /\ (- b <= snd p /\ snd p <= b))%Q.

(** The display code of one label. *)
Definition color_of (l : Q) : string :=
  if Qeq_bool l 1 then "r"%string else "b"%string.

(** The labels of a split of [n] rows whose first [n_inliers] are inliers. *)
Definition labels_from (n_inliers : Z) (n : nat) : ndarray :=
  let k := Py.slice_start n_inliers n in
  mkArr [n] (repeat 0%Q k ++ repeat 1%Q (n - k)).

(** Row counts with which a split can be built and passes validation. *)
Definition buildable (n_inliers n_outliers : Z) : Prop :=
  0 <= n_inliers /\ 0 <= n_outliers /\ 1 <= 2 * (n_inliers / 2) + n_outliers.

(** The shapes [column_or_1d] accepts. *)
Definition flat_shape (shp : list nat) : bool :=
  match shp with
  | [_] => true
  | [_; 1%nat] => true
  | _ => false
  end.

(** That the uniformly drawn rows of a split (those after the two
    sub-clusters), and with them every row labelled 1, lie in the square of
    half-width [b]. *)
Definition outliers_within (b : Q) (n_inliers : Z) (X : list (Q * Q))
  (y : ndarray) : Prop :=
  (forall i p, 2 * (n_inliers / 2) <= Z.of_nat i ->
               nth_error X i = Some p -> in_square b p) /\
  (forall i p l, nth_error X i = Some p -> nth_error (data y) i = Some l ->
                 (l == 1)%Q -> in_square b p).

(** What a split that was returned looks like. *)
Record split_post (ni no : Z) (b : Q) (s : RandomState)
  (X : list (Q * Q)) (y : ndarray) (s' : RandomState) : Prop := {
  post_half : 0 <= ni / 2;
  post_outliers : 0 <= no;
  post_rows : length X = (2 * Z.to_nat (ni / 2) + Z.to_nat no)%nat;
  post_nonempty : (1 <= length X)%nat;
  post_uniform : Forall (in_square b) (skipn (2 * Z.to_nat (ni / 2)) X);
  post_labels : y = labels_from ni (length X);
  post_gauss : gauss_drawn s' = (gauss_drawn s + 4 * Z.to_nat (ni / 2))%nat;
  post_raw : raw_drawn s' = (raw_drawn s + 2 * Z.to_nat no)%nat
}.

(** A random source to run the examples on. *)
Definition sample_state : RandomState :=
  mkRandomState (fun i => Qmake (Z.of_nat i - 3) 7)
                (fun i => Z.of_nat i * 1234567890123457 + 17) 0 0.

(* ================================================================== *)
(** * Lemmas *)

(** ** The monad *)

Lemma bind_Ok {S A B : Type} (m : M S A) (k : A -> M S B) s b s' :
  bind m k s = (Ok b, s') ->
  exists a s1, m s = (Ok a, s1) /\ k a s1 = (Ok b, s').
Proof.
  unfold bind. destruct (m s) as [[a | e] s1]; intros H.
  - exists a, s1. split; [reflexivity | exact H].
  - discriminate H.
Qed.

Lemma bind_run {S A B : Type} (m : M S A) (k : A -> M S B) s a s1 :
  m s = (Ok a, s1) -> bind m k s = k a s1.
Proof. unfold bind. intros ->. reflexivity. Qed.

(** ** Python slices *)

Ltac case_ltb :=
  repeat match goal with
         | |- context [?a <? ?b] => destruct (Z.ltb_spec a b); cbv iota
         end.

Lemma slice_start_nonneg (start : Z) (n : nat) :
  0 <= start -> Py.slice_start start n = Nat.min (Z.to_nat start) n.
Proof.
  intros Hs. unfold Py.slice_start. cbv zeta.
  destruct (Z.ltb_spec start 0); cbv iota; case_ltb; lia.
Qed.

Lemma slice_start_le (start : Z) (n : nat) :
  (Py.slice_start start n <= n)%nat.
Proof.
  unfold Py.slice_start. cbv zeta.
  destruct (Z.ltb_spec start 0); cbv iota; case_ltb; lia.
Qed.

(** ** Random draws *)

Section Draws.

Variable draw : RandomState -> Q * RandomState.

Lemma fill_rows_length n s : length (fst (fill_rows draw n s)) = n.
Proof.
  revert s. induction n as [| n IH]; intros s; simpl; [reflexivity |].
  destruct (draw s) as [a s1]. destruct (draw s1) as [b s2].
  specialize (IH s2). destruct (fill_rows draw n s2) as [rows s3].
  simpl in *. now rewrite IH.
Qed.

(** A property every draw has holds of both coordinates of every row. *)
Lemma fill_rows_Forall (P : Q -> Prop) n s :
  (forall t, P (fst (draw t))) ->
  Forall (fun p => P (fst p) /\ P (snd p)) (fst (fill_rows draw n s)).
Proof.
  intros HP. revert s. induction n as [| n IH]; intros s; simpl.
  - constructor.
  - pose proof (HP s) as Ha. destruct (draw s) as [a s1].
    pose proof (HP s1) as Hb. destruct (draw s1) as [b s2].
    specialize (IH s2). destruct (fill_rows draw n s2) as [rows s3].
    simpl in *. constructor; [split; assumption | exact IH].
Qed.

(** Draws that advance two counters by fixed steps advance them by twice
    the step per row. *)
Lemma fill_rows_drawn (dg dr : nat) n s :
  (forall t, gauss_drawn (snd (draw t)) = (gauss_drawn t + dg)%nat /\
             raw_drawn (snd (draw t)) = (raw_drawn t + dr)%nat) ->
  gauss_drawn (snd (fill_rows draw n s)) = (gauss_drawn s + 2 * n * dg)%nat /\
  raw_drawn (snd (fill_rows draw n s)) = (raw_drawn s + 2 * n * dr)%nat.
Proof.
  intros Hd. revert s. induction n as [| n IH]; intros s; simpl.
  - split; lia.
  - pose proof (Hd s) as [Hg1 Hr1]. destruct (draw s) as [a s1].
    pose proof (Hd s1) as [Hg2 Hr2]. destruct (draw s1) as [b s2].
    specialize (IH s2). destruct (fill_rows draw n s2) as [rows s3].
    simpl in *. destruct IH as [IHg IHr]. split; lia.
Qed.

End Draws.

Lemma rk_double_range s :
  (0 <= fst (rk_double s) /\ fst (rk_double s) < 1)%Q.
Proof.
  unfold rk_double; simpl fst.
  assert (Hpos : 0 < 2 ^ 53) by reflexivity.
  pose proof (Z.mod_pos_bound (raw_tape s (raw_drawn s)) (2 ^ 53) Hpos) as [H0 H1].
  split.
  - unfold Qle; simpl Qnum; simpl Qden. lia.
  - unfold Qlt; simpl Qnum; simpl Qden.
    change (Z.pos (2 ^ 53)) with (2 ^ 53). lia.
Qed.

Lemma rk_uniform_range low high s :
  (low <= high)%Q ->
  (low <= fst (rk_uniform low high s) /\ fst (rk_uniform low high s) <= high)%Q.
Proof.
  intros Hlh. unfold rk_uniform.
  pose proof (rk_double_range s) as [H0 H1].
  destruct (rk_double s) as [u s1]. simpl in *.
  split; nra.
Qed.

Lemma rk_gauss_drawn t :
  gauss_drawn (snd (rk_gauss t)) = (gauss_drawn t + 1)%nat /\
  raw_drawn (snd (rk_gauss t)) = (raw_drawn t + 0)%nat.
Proof. unfold rk_gauss; simpl. split; lia. Qed.

Lemma rk_uniform_drawn low high t :
  gauss_drawn (snd (rk_uniform low high t)) = (gauss_drawn t + 0)%nat /\
  raw_drawn (snd (rk_uniform low high t)) = (raw_drawn t + 1)%nat.
Proof. unfold rk_uniform, rk_double; simpl. split; lia. Qed.

Lemma randn_Ok d s rows s' :
  randn d s = (Ok rows, s') ->
  0 <= d /\ length rows = Z.to_nat d /\
  gauss_drawn s' = (gauss_drawn s + 2 * Z.to_nat d)%nat /\
  raw_drawn s' = raw_drawn s.
Proof.
  unfold randn. destruct (d <? 0) eqn:E; [discriminate |].
  apply Z.ltb_ge in E.
  pose proof (fill_rows_length rk_gauss (Z.to_nat d) s) as Hl.
  pose proof (fill_rows_drawn rk_gauss 1 0 (Z.to_nat d) s rk_gauss_drawn)
    as [Hg Hr].
  destruct (fill_rows rk_gauss (Z.to_nat d) s) as [rows0 s0].
  intros H; inversion H; subst. simpl in *. repeat split; lia.
Qed.

Lemma randn_run d s :
  0 <= d -> exists rows s', randn d s = (Ok rows, s').
Proof.
  intros Hd. unfold randn.
  destruct (d <? 0) eqn:E; [apply Z.ltb_lt in E; lia |].
  destruct (fill_rows rk_gauss (Z.to_nat d) s) as [rows s'].
  now exists rows, s'.
Qed.

Lemma uniform_Ok b d s rows s' :
  (0 <= b)%Q ->
  uniform (- b) b d s = (Ok rows, s') ->
  0 <= d /\ length rows = Z.to_nat d /\ Forall (in_square b) rows /\
  gauss_drawn s' = gauss_drawn s /\
  raw_drawn s' = (raw_drawn s + 2 * Z.to_nat d)%nat.
Proof.
  intros Hb. unfold uniform. destruct (d <? 0) eqn:E; [discriminate |].
  apply Z.ltb_ge in E.
  pose proof (fill_rows_length (rk_uniform (- b) b) (Z.to_nat d) s) as Hl.
  pose proof (fill_rows_drawn (rk_uniform (- b) b) 0 1 (Z.to_nat d) s
                (rk_uniform_drawn (- b) b)) as [Hg Hr].
  assert (Hlh : (- b <= b)%Q) by lra.
  pose proof (fill_rows_Forall (rk_uniform (- b) b)
                (fun x => (- b <= x /\ x <= b)%Q) (Z.to_nat d) s
                (fun t => rk_uniform_range (- b) b t Hlh)) as HF.
  destruct (fill_rows (rk_uniform (- b) b) (Z.to_nat d) s) as [rows0 s0].
  intros H; inversion H; subst. simpl in *.
  repeat split; try lia. exact HF.
Qed.

Lemma uniform_run low high d s :
  0 <= d -> exists rows s', uniform low high d s = (Ok rows, s').
Proof.
  intros Hd. unfold uniform.
  destruct (d <? 0) eqn:E; [apply Z.ltb_lt in E; lia |].
  destruct (fill_rows (rk_uniform low high) (Z.to_nat d) s) as [rows s'].
  now exists rows, s'.
Qed.

Lemma affine_length a b X : length (affine a b X) = length X.
Proof. unfold affine. apply length_map. Qed.

(** ** Label arrays *)

Lemma firstn_repeat {T : Type} (x : T) (k m : nat) :
  firstn k (repeat x m) = repeat x (Nat.min k m).
Proof.
  revert m. induction k as [| k IH]; intros [| m]; simpl; try reflexivity.
  now rewrite IH.
Qed.

Lemma labels_from_length ni n : length (data (labels_from ni n)) = n.
Proof.
  unfold labels_from; simpl. rewrite length_app, !repeat_length.
  pose proof (slice_start_le ni n). lia.
Qed.

(** The target of a split of [n] rows, once ravelled. *)
Lemma target_labels ni n :
  ravel (setitem_from ni 1 (zeros [n; 1%nat])) = labels_from ni n.
Proof.
  pose proof (slice_start_le ni n) as Hk.
  unfold ravel, setitem_from, zeros, len, labels_from; simpl.
  rewrite !Nat.mul_1_r, firstn_repeat, repeat_length.
  rewrite Nat.min_l by exact Hk.
  rewrite length_app, !repeat_length.
  replace (Py.slice_start ni n + (n - Py.slice_start ni n))%nat with n by lia.
  reflexivity.
Qed.

Lemma check_labels X ni :
  (1 <= length X)%nat ->
  check_X_y X (labels_from ni (length X)) = Ok (X, labels_from ni (length X)).
Proof.
  intros HX. unfold check_X_y.
  destruct (Nat.ltb_spec (length X) 1) as [Hlt | _]; [lia |].
  unfold column_or_1d, ravel, len. simpl shape.
  rewrite labels_from_length. simpl hd. rewrite Nat.eqb_refl.
  reflexivity.
Qed.

Lemma check_empty (y : ndarray) : check_X_y [] y = Raise ValueError.
Proof. reflexivity. Qed.

Lemma filter_repeat_true {T : Type} (f : T -> bool) (x : T) (n : nat) :
  f x = true -> filter f (repeat x n) = repeat x n.
Proof. intros Hf. induction n as [| n IH]; simpl; [| rewrite Hf, IH]; reflexivity. Qed.

Lemma filter_repeat_false {T : Type} (f : T -> bool) (x : T) (n : nat) :
  f x = false -> filter f (repeat x n) = [].
Proof. intros Hf. induction n as [| n IH]; simpl; [| rewrite Hf, IH]; reflexivity. Qed.

Lemma count_ones_labels ni n :
  count_label 1 (labels_from ni n) = (n - Py.slice_start ni n)%nat.
Proof.
  unfold count_label, labels_from; simpl.
  rewrite filter_app, filter_repeat_false, filter_repeat_true by reflexivity.
  simpl. apply repeat_length.
Qed.

Lemma count_zeros_labels ni n :
  count_label 0 (labels_from ni n) = Py.slice_start ni n.
Proof.
  unfold count_label, labels_from; simpl.
  rewrite filter_app, filter_repeat_true, filter_repeat_false by reflexivity.
  rewrite app_nil_r. apply repeat_length.
Qed.

Lemma labels_nth ni n i :
  (i < n)%nat ->
  nth_error (data (labels_from ni n)) i =
  Some (if (i <? Py.slice_start ni n)%nat then 0%Q else 1%Q).
Proof.
  intros Hi. unfold labels_from; simpl.
  pose proof (slice_start_le ni n) as Hk.
  destruct (Nat.ltb_spec i (Py.slice_start ni n)) as [Hlt | Hge].
  - rewrite nth_error_app1 by (rewrite repeat_length; exact Hlt).
    apply nth_error_repeat. exact Hlt.
  - rewrite nth_error_app2 by (rewrite repeat_length; exact Hge).
    rewrite repeat_length. apply nth_error_repeat. lia.
Qed.

(** ** One split *)

Lemma inlier_clusters_Ok ni off s X1 X2 s' :
  inlier_clusters ni off s = (Ok (X1, X2), s') ->
  0 <= ni / 2 /\
  length X1 = Z.to_nat (ni / 2) /\ length X2 = Z.to_nat (ni / 2) /\
  gauss_drawn s' = (gauss_drawn s + 4 * Z.to_nat (ni / 2))%nat /\
  raw_drawn s' = raw_drawn s.
Proof.
  unfold inlier_clusters, Py.floordiv. intros H.
  apply bind_Ok in H as (G1 & s1 & H1 & H).
  apply bind_Ok in H as (G2 & s2 & H2 & H).
  apply randn_Ok in H1 as (Hd & L1 & Hg1 & Hr1).
  apply randn_Ok in H2 as (_ & L2 & Hg2 & Hr2).
  unfold ret in H. inversion H; subst.
  rewrite !affine_length. repeat split; lia.
Qed.

Lemma inlier_clusters_run ni off s :
  0 <= ni / 2 -> exists X1 X2 s', inlier_clusters ni off s = (Ok (X1, X2), s').
Proof.
  intros Hd. unfold inlier_clusters, Py.floordiv.
  destruct (randn_run (ni / 2) s Hd) as (G1 & s1 & H1).
  destruct (randn_run (ni / 2) s1 Hd) as (G2 & s2 & H2).
  rewrite (bind_run _ _ _ _ _ H1), (bind_run _ _ _ _ _ H2).
  unfold ret. eauto.
Qed.

Lemma split_Ok ni no off b s X y s' :
  (0 <= b)%Q ->
  split ni no off b s = (Ok (X, y), s') ->
  split_post ni no b s X y s'.
Proof.
  intros Hb H. unfold split in H.
  apply bind_Ok in H as ([X1 X2] & s1 & H1 & H).
  apply bind_Ok in H as (U & s2 & H2 & H).
  apply inlier_clusters_Ok in H1 as (Hd & L1 & L2 & Hg1 & Hr1).
  apply (uniform_Ok b no s1 U s2 Hb) in H2 as (Ho & LU & HU & Hg2 & Hr2).
  unfold lift, r_ in H. rewrite target_labels in H.
  assert (HL : length ((X1 ++ X2) ++ U)
               = (2 * Z.to_nat (ni / 2) + Z.to_nat no)%nat)
    by (rewrite !length_app; lia).
  destruct ((X1 ++ X2) ++ U) as [| p rest] eqn:EX.
  - rewrite check_empty in H. discriminate H.
  - rewrite check_labels in H by (simpl; lia).
    inversion H; subst X y s'. clear H.
    constructor; try assumption; try lia.
    + simpl; lia.
    + rewrite <- EX.
      replace (2 * Z.to_nat (ni / 2))%nat with (length (X1 ++ X2) + 0)%nat
        by (rewrite length_app; lia).
      rewrite skipn_app, skipn_all2 by lia.
      replace (length (X1 ++ X2) + 0 - length (X1 ++ X2))%nat with 0%nat by lia.
      exact HU.
    + reflexivity.
Qed.

Lemma split_run ni no off b s :
  buildable ni no -> exists X y s', split ni no off b s = (Ok (X, y), s').
Proof.
  intros (Hi & Ho & Hn). unfold split.
  assert (Hd : 0 <= ni / 2) by (apply Z.div_pos; lia).
  destruct (inlier_clusters_run ni off s Hd) as (X1 & X2 & s1 & H1).
  destruct (uniform_run (- b) b no s1 Ho) as (U & s2 & H2).
  rewrite (bind_run _ _ _ _ _ H1). cbv beta iota.
  rewrite (bind_run _ _ _ _ _ H2).
  apply inlier_clusters_Ok in H1 as (_ & L1 & L2 & _).
  assert (LU : length U = Z.to_nat no).
  { unfold uniform in H2.
    destruct (no <? 0); [discriminate |].
    pose proof (fill_rows_length (rk_uniform (- b) b) (Z.to_nat no) s1) as Hl.
    destruct (fill_rows (rk_uniform (- b) b) (Z.to_nat no) s1).
    inversion H2; subst. exact Hl. }
  unfold lift, r_. rewrite target_labels, check_labels.
  - eauto.
  - rewrite !length_app. lia.
Qed.

(** A split is returned only for [buildable] counts. *)
Lemma split_Ok_buildable ni no off b s X y s' :
  (0 <= b)%Q -> split ni no off b s = (Ok (X, y), s') ->
  0 <= ni / 2 /\ 0 <= no /\ 1 <= 2 * (ni / 2) + no.
Proof.
  intros Hb H. destruct (split_Ok _ _ _ _ _ _ _ _ Hb H).
  repeat split; lia.
Qed.

(** ** [generate_data] as two splits *)

Lemma generate_data_split n_train n_test contamination train_only s :
  generate_data n_train n_test contamination train_only s =
  (' (X_train, y_train) <-
       split (n_inliers_of n_train contamination)
             (n_outliers_of n_train contamination) 2 6 ;;
   if train_only then ret (Tuple2 X_train y_train)
   else
     ' (X_test, y_test) <-
         split (n_inliers_of n_test contamination)
               (n_outliers_of n_test contamination) 2 8 ;;
     ret (Tuple4 X_train y_train X_test y_test))%py s.
Proof.
  unfold generate_data, split, inlier_clusters, n_inliers_of, n_outliers_of.
  unfold bind, lift, ret.
  destruct (randn _ s) as [[G1 | e] s1]; [| reflexivity].
  destruct (randn _ s1) as [[G2 | e] s2]; [| reflexivity].
  destruct (uniform _ _ _ s2) as [[U | e] s3]; [| reflexivity].
  destruct (check_X_y _ _) as [[X y] | e]; [| reflexivity].
  destruct train_only; [reflexivity |].
  destruct (randn _ s3) as [[G1t | e] s4]; [| reflexivity].
  destruct (randn _ s4) as [[G2t | e] s5]; [| reflexivity].
  destruct (uniform _ _ _ s5) as [[Ut | e] s6]; [| reflexivity].
  destruct (check_X_y _ _) as [[Xt yt] | e]; reflexivity.
Qed.

(** A returned tuple comes from a training split and, unless [train_only],
    a test split drawn after it. *)
Lemma generate_data_Ok n_train n_test contamination train_only s r s' :
  generate_data n_train n_test contamination train_only s = (Ok r, s') ->
  exists s1,
    split (n_inliers_of n_train contamination)
          (n_outliers_of n_train contamination) 2 6 s
    = (Ok (X_train_of r, y_train_of r), s1) /\
    if train_only then r = Tuple2 (X_train_of r) (y_train_of r) /\ s' = s1
    else exists X_test y_test,
        split (n_inliers_of n_test contamination)
              (n_outliers_of n_test contamination) 2 8 s1
        = (Ok (X_test, y_test), s') /\
        r = Tuple4 (X_train_of r) (y_train_of r) X_test y_test.
Proof.
  rewrite generate_data_split. intros H.
  apply bind_Ok in H as ([X y] & s1 & H1 & H).
  exists s1. destruct train_only.
  - unfold ret in H. inversion H; subst. simpl. auto.
  - apply bind_Ok in H as ([Xt yt] & s2 & H2 & H).
    unfold ret in H. inversion H; subst. simpl. split; [exact H1 |].
    exists Xt, yt. auto.
Qed.

Lemma generate_data_run n_train n_test contamination train_only s :
  buildable (n_inliers_of n_train contamination)
            (n_outliers_of n_train contamination) ->
  train_only = true \/
  buildable (n_inliers_of n_test contamination)
            (n_outliers_of n_test contamination) ->
  exists r s', generate_data n_train n_test contamination train_only s
               = (Ok r, s').
Proof.
  intros Htrain Htest. rewrite generate_data_split.
  destruct (split_run _ _ 2 6 s Htrain) as (X & y & s1 & H1).
  rewrite (bind_run _ _ _ _ _ H1). cbv beta iota.
  destruct train_only.
  - unfold ret. eauto.
  - destruct Htest as [Hf | Htest]; [discriminate Hf |].
    destruct (split_run _ _ 2 8 s1 Htest) as (Xt & yt & s2 & H2).
    rewrite (bind_run _ _ _ _ _ H2). cbv beta iota. unfold ret. eauto.
Qed.

(** With [train_only], a tuple is returned exactly for [buildable] counts
    of the training split. *)
Lemma generate_data_returns_iff n_train n_test contamination s :
  (exists r s', generate_data n_train n_test contamination true s = (Ok r, s'))
  <-> buildable (n_inliers_of n_train contamination)
                (n_outliers_of n_train contamination).
Proof.
  split.
  - intros (r & s' & H).
    destruct (generate_data_Ok _ _ _ _ _ _ _ H) as (s1 & Hs & _).
    assert (H6 : (0 <= 6)%Q) by (unfold Qle; simpl; lia).
    destruct (split_Ok_buildable _ _ _ _ _ _ _ _ H6 Hs) as (Hd & Ho & Hn).
    unfold buildable. repeat split; try assumption.
    destruct (Z.ltb_spec (n_inliers_of n_train contamination) 0)
      as [Hneg | Hpos]; [| exact Hpos].
    assert (n_inliers_of n_train contamination / 2 < 0)
      by (apply Z.div_lt_upper_bound; lia).
    lia.
  - intros Hb. apply generate_data_run; [exact Hb | left; reflexivity].
Qed.

(** [int] of a non-negative float is its floor. *)
Lemma int_floor (x : Q) : (0 <= x)%Q -> Py.int x = Qfloor x.
Proof.
  intros Hx. unfold Py.int, Qfloor. destruct x as [n d]. simpl.
  unfold Qle in Hx; simpl in Hx.
  apply Z.quot_div_nonneg; lia.
Qed.

Lemma int_zero_of_floor (x : Q) : Qfloor x = 0 -> Py.int x = 0.
Proof.
  unfold Py.int, Qfloor. destruct x as [n d]. simpl. intros Hf.
  assert (Hd : 0 < Z.pos d) by lia.
  pose proof (Z.div_mod n (Z.pos d)) as Hdm.
  pose proof (Z.mod_pos_bound n (Z.pos d) Hd) as Hm.
  apply Z.quot_small. rewrite Hf in Hdm. lia.
Qed.

Lemma odd_half (n : Z) : Z.odd n = true -> 2 * (n / 2) = n - 1.
Proof.
  intros Ho. pose proof (Z.div_mod n 2) as Hdm.
  pose proof (Zmod_odd n) as Hm. rewrite Ho in Hm. lia.
Qed.

Lemma even_half (n : Z) : Z.even n = true -> 2 * (n / 2) = n.
Proof.
  intros He. pose proof (Z.div_mod n 2) as Hdm.
  pose proof (Zmod_even n) as Hm. rewrite He in Hm. lia.
Qed.

(** ** Colour codes *)

Lemma setitem_app {T : Type} (pre : list T) (x v : T) (rest : list T) :
  setitem (length pre) v (pre ++ x :: rest) = pre ++ v :: rest.
Proof. induction pre as [| p pre IH]; simpl; [| rewrite IH]; reflexivity. Qed.

(** Painting the indices found by [np.where] red, on an all-blue array, is
    the label-by-label colouring. *)
Lemma paint_from (l : list Q) (pre : list string) :
  setitem_indices (where_eq_from (length pre) 1 l) "r"%string
    (pre ++ full (length l) "b"%string)
  = pre ++ map color_of l.
Proof.
  unfold setitem_indices, full. revert pre.
  induction l as [| x l IH]; intros pre; simpl; [reflexivity |].
  unfold color_of at 1.
  destruct (Qeq_bool x 1); simpl.
  - rewrite setitem_app.
    specialize (IH (pre ++ ["r"%string])).
    rewrite length_app, Nat.add_1_r, <- !app_assoc in IH. exact IH.
  - specialize (IH (pre ++ ["b"%string])).
    rewrite length_app, Nat.add_1_r, <- !app_assoc in IH. exact IH.
Qed.

Lemma paint (l : list Q) :
  setitem_indices (where_eq 1 l) "r"%string (full (length l) "b"%string)
  = map color_of l.
Proof. exact (paint_from l []). Qed.

Lemma column_or_1d_shape (y : ndarray) :
  column_or_1d y = if flat_shape (shape y) then Ok (ravel y) else Raise ValueError.
Proof.
  unfold column_or_1d, flat_shape.
  destruct (shape y) as [| n [| m [| k rest]]]; try reflexivity.
  - destruct m as [| [| m]]; reflexivity.
  - destruct m as [| [| m]]; reflexivity.
Qed.

(** ** Rounding *)

Lemma rint_close (x : Q) :
  (- (1 # 2) <= x - inject_Z (rint x) /\ x - inject_Z (rint x) <= 1 # 2)%Q.
Proof.
  unfold rint. cbv zeta.
  pose proof (Qfloor_le x) as Hlo. pose proof (Qlt_floor x) as Hhi.
  rewrite inject_Z_plus in Hhi. change (inject_Z 1) with 1%Q in Hhi.
  destruct (Qcompare_spec (x - inject_Z (Qfloor x)) (1 # 2)) as [He | Hl | Hg];
    [destruct (Z.even (Qfloor x)) | |];
    rewrite ?inject_Z_plus; change (inject_Z 1) with 1%Q; split; lra.
Qed.

(** ** One-class ground truth *)

Lemma scores_of_all_zero (y s : list Q) :
  Forall (fun l => (l == 0)%Q) y -> scores_of true y s = [].
Proof.
  intros Hy. revert s. induction Hy as [| l y Hl _ IH]; intros s.
  - reflexivity.
  - destruct s as [| v s]; simpl; [reflexivity |].
    assert (E : is_label 1 l = false).
    { unfold is_label. destruct (Qeq_bool l 1) eqn:E; [| reflexivity].
      apply Qeq_bool_iff in E. rewrite Hl in E. discriminate E. }
    rewrite E. simpl. apply IH.
Qed.

Lemma scores_of_all_one (y s : list Q) :
  Forall (fun l => (l == 1)%Q) y -> scores_of false y s = [].
Proof.
  intros Hy. revert s. induction Hy as [| l y Hl _ IH]; intros s.
  - reflexivity.
  - destruct s as [| v s]; simpl; [reflexivity |].
    assert (E : is_label 1 l = true).
    { unfold is_label. apply Qeq_bool_iff. exact Hl. }
    rewrite E. simpl. apply IH.
Qed.

Lemma roc_auc_score_one_class (y s : ndarray) :
  Forall (fun l => (l == 0)%Q) (data y) \/ Forall (fun l => (l == 1)%Q) (data y) ->
  roc_auc_score y s = Raise ValueError.
Proof.
  intros Hy. unfold roc_auc_score. cbv zeta.
  destruct (negb (length (data y) =? length (data s))%nat); [reflexivity |].
  destruct (negb (forallb _ (data y))); [reflexivity |].
  destruct Hy as [H0 | H1].
  - rewrite (scores_of_all_zero _ _ H0). reflexivity.
  - rewrite (scores_of_all_one _ _ H1). simpl length.
    rewrite orb_true_r. reflexivity.
Qed.

(** ** Where the outliers of a split are *)

Lemma split_post_outliers ni no b s X y s' :
  split_post ni no b s X y s' -> outliers_within b ni X y.
Proof.
  intros [Hd Ho HL Hne HU Hy Hg Hr].
  assert (Huni : forall i p, 2 * (ni / 2) <= Z.of_nat i ->
                             nth_error X i = Some p -> in_square b p).
  { intros i p Hi Hp.
    rewrite Forall_forall in HU. apply HU.
    apply (nth_error_In _ (i - 2 * Z.to_nat (ni / 2))).
    rewrite nth_error_skipn.
    replace (2 * Z.to_nat (ni / 2) + (i - 2 * Z.to_nat (ni / 2)))%nat
      with i by lia.
    exact Hp. }
  split; [exact Huni |].
  intros i p l Hp Hl H1. apply (Huni i p); [| exact Hp].
  assert (Hi : (i < length X)%nat) by (apply nth_error_Some; congruence).
  subst y. rewrite (labels_nth ni (length X) i Hi) in Hl.
  assert (Hni : 0 <= ni).
  { destruct (Z.ltb_spec ni 0) as [Hneg | Hpos]; [| exact Hpos].
    assert (ni / 2 < 0) by (apply Z.div_lt_upper_bound; lia). lia. }
  rewrite (slice_start_nonneg ni (length X) Hni) in Hl.
  destruct (Nat.ltb_spec i (Nat.min (Z.to_nat ni) (length X))) as [Hlt | Hge].
  - inversion Hl; subst l. discriminate H1.
  - pose proof (Z.div_mod ni 2) as Hdm.
    pose proof (Z.mod_pos_bound ni 2) as Hm. lia.
Qed.

(* ================================================================== *)
(** * Further lemmas *)

(** ** What the random source hands out, and where it stands afterwards *)

Lemma fill_rows_gauss_state n s :
  snd (fill_rows rk_gauss n s)
  = mkRandomState (gauss_tape s) (raw_tape s)
      (gauss_drawn s + 2 * n) (raw_drawn s).
Proof.
  revert s. induction n as [| n IH]; intros s.
  - destruct s; simpl. f_equal. lia.
  - simpl. specialize (IH (snd (rk_gauss (snd (rk_gauss s))))).
    simpl in IH.
    destruct (fill_rows rk_gauss n _) as [rows s3]. simpl in *.
    rewrite IH. f_equal. lia.
Qed.

Lemma fill_rows_gauss_nth n s i :
  (i < n)%nat ->
  nth_error (fst (fill_rows rk_gauss n s)) i
  = Some (gauss_tape s (gauss_drawn s + 2 * i),
          gauss_tape s (gauss_drawn s + 2 * i + 1)).
Proof.
  revert s i. induction n as [| n IH]; intros s i Hi; [lia |].
  simpl. specialize (IH (snd (rk_gauss (snd (rk_gauss s))))).
  simpl in IH.
  destruct (fill_rows rk_gauss n _) as [rows s3]. simpl in *.
  destruct i as [| i].
  - simpl. f_equal. f_equal; f_equal; lia.
  - simpl. rewrite (IH i) by lia. f_equal. f_equal; f_equal; lia.
Qed.

Lemma fill_rows_uniform_state low high n s :
  snd (fill_rows (rk_uniform low high) n s)
  = mkRandomState (gauss_tape s) (raw_tape s)
      (gauss_drawn s) (raw_drawn s + 2 * n).
Proof.
  revert s. induction n as [| n IH]; intros s.
  - destruct s; simpl. f_equal. lia.
  - simpl.
    specialize (IH (snd (rk_uniform low high (snd (rk_uniform low high s))))).
    simpl in IH.
    destruct (fill_rows (rk_uniform low high) n _) as [rows s3]. simpl in *.
    rewrite IH. f_equal. lia.
Qed.

Lemma fill_rows_uniform_nth low high n s i :
  (i < n)%nat ->
  nth_error (fst (fill_rows (rk_uniform low high) n s)) i
  = Some ((low + (high - low) * double_at s (raw_drawn s + 2 * i))%Q,
          (low + (high - low) * double_at s (raw_drawn s + 2 * i + 1))%Q).
Proof.
  revert s i. induction n as [| n IH]; intros s i Hi; [lia |].
  simpl.
  specialize (IH (snd (rk_uniform low high (snd (rk_uniform low high s))))).
  simpl in IH.
  destruct (fill_rows (rk_uniform low high) n _) as [rows s3]. simpl in *.
  destruct i as [| i].
  - simpl. unfold double_at.
    replace (raw_drawn s + 0 + 1)%nat with (S (raw_drawn s)) by lia.
    replace (raw_drawn s + 0)%nat with (raw_drawn s) by lia.
    reflexivity.
  - simpl. rewrite (IH i) by lia. unfold double_at. simpl raw_tape.
    replace (raw_drawn s + S (i + S (i + 0)) + 1)%nat
      with (S (S (raw_drawn s + (i + (i + 0)) + 1))) by lia.
    replace (raw_drawn s + S (i + S (i + 0)))%nat
      with (S (S (raw_drawn s + (i + (i + 0))))) by lia.
    reflexivity.
Qed.

(** The rows of a returned split, and the random source it leaves, in terms
    of the draws. *)
Lemma split_rows ni no off b s X y s' :
  split ni no off b s = (Ok (X, y), s') ->
  X = affine (3 # 10) (- off) (fst (fill_rows rk_gauss (Z.to_nat (ni / 2)) s))
      ++ affine (3 # 10) off
           (fst (fill_rows rk_gauss (Z.to_nat (ni / 2))
                   (snd (fill_rows rk_gauss (Z.to_nat (ni / 2)) s))))
      ++ fst (fill_rows (rk_uniform (- b) b) (Z.to_nat no)
                (snd (fill_rows rk_gauss (Z.to_nat (ni / 2))
                        (snd (fill_rows rk_gauss (Z.to_nat (ni / 2)) s))))) /\
  s' = snd (fill_rows (rk_uniform (- b) b) (Z.to_nat no)
              (snd (fill_rows rk_gauss (Z.to_nat (ni / 2))
                      (snd (fill_rows rk_gauss (Z.to_nat (ni / 2)) s))))).
Proof.
  unfold split, inlier_clusters, bind, randn, uniform, lift, ret, Py.floordiv.
  destruct (ni / 2 <? 0); [discriminate |].
  destruct (fill_rows rk_gauss (Z.to_nat (ni / 2)) s) as [G1 s1]. simpl.
  destruct (fill_rows rk_gauss (Z.to_nat (ni / 2)) s1) as [G2 s2]. simpl.
  destruct (no <? 0); [discriminate |].
  destruct (fill_rows (rk_uniform (- b) b) (Z.to_nat no) s2) as [U s3]. simpl.
  unfold r_. rewrite target_labels.
  destruct ((affine (3 # 10) (- off) G1 ++ affine (3 # 10) off G2) ++ U)
    as [| p rest] eqn:EX.
  - rewrite check_empty. discriminate.
  - rewrite check_labels by (simpl; lia).
    intros H. inversion H; subst. rewrite <- EX, <- app_assoc. auto.
Qed.

Lemma affine_nth a b X i p :
  nth_error X i = Some p ->
  nth_error (affine a b X) i = Some ((a * fst p + b)%Q, (a * snd p + b)%Q).
Proof. intros H. unfold affine. rewrite nth_error_map, H. reflexivity. Qed.

Lemma half_nonneg (n : Z) : 0 <= n / 2 -> 0 <= n.
Proof.
  intros H. destruct (Z.ltb_spec n 0) as [Hneg | Hpos]; [| exact Hpos].
  assert (n / 2 < 0) by (apply Z.div_lt_upper_bound; lia). lia.
Qed.

(** The counts of a split for a contamination in [0, 1]. *)
Lemma n_outliers_range (n : Z) (c : Q) :
  0 <= n -> (0 <= c)%Q -> (c <= 1)%Q ->
  0 <= n_outliers_of n c <= n.
Proof.
  intros Hn H0 H1. unfold n_outliers_of, Py.int.
  destruct c as [a d]. unfold Qle in H0, H1. simpl in *.
  rewrite Z.quot_div_nonneg by nia.
  split.
  - apply Z.div_pos; nia.
  - apply Z.div_le_upper_bound; nia.
Qed.

Lemma counts_buildable (n : Z) (c : Q) :
  2 <= n -> (0 <= c)%Q -> (c <= 1)%Q ->
  buildable (n_inliers_of n c) (n_outliers_of n c).
Proof.
  intros Hn H0 H1.
  assert (Hr : 0 <= n_outliers_of n c <= n)
    by (apply n_outliers_range; [lia | assumption | assumption]).
  unfold buildable, n_inliers_of.
  pose proof (Z.div_mod (n - n_outliers_of n c) 2) as Hdm.
  pose proof (Z.mod_pos_bound (n - n_outliers_of n c) 2) as Hm.
  repeat split; lia.
Qed.

(** Where the rows of a returned split come from: row [i] of the two
    sub-clusters holds the normal deviates [2 i] and [2 i + 1] handed out
    since the split began, scaled by 0.3 and moved by the offset, downwards
    in the first sub-cluster and upwards in the second; row [j] of the
    outliers holds the doubles [2 j] and [2 j + 1], stretched over
    [-b, b). *)
Lemma split_row_content ni no off b s X y s' :
  split ni no off b s = (Ok (X, y), s') ->
  (forall i, (i < Z.to_nat (ni / 2))%nat ->
     nth_error X i
     = Some (((3 # 10) * gauss_tape s (gauss_drawn s + 2 * i) + - off)%Q,
             ((3 # 10) * gauss_tape s (gauss_drawn s + 2 * i + 1) + - off)%Q)) /\
  (forall i, (Z.to_nat (ni / 2) <= i < 2 * Z.to_nat (ni / 2))%nat ->
     nth_error X i
     = Some (((3 # 10) * gauss_tape s (gauss_drawn s + 2 * i) + off)%Q,
             ((3 # 10) * gauss_tape s (gauss_drawn s + 2 * i + 1) + off)%Q)) /\
  (forall j, (j < Z.to_nat no)%nat ->
     nth_error X (2 * Z.to_nat (ni / 2) + j)
     = Some ((- b + (b - - b) * double_at s (raw_drawn s + 2 * j))%Q,
             (- b + (b - - b) * double_at s (raw_drawn s + 2 * j + 1))%Q)) /\
  s' = mkRandomState (gauss_tape s) (raw_tape s)
         (gauss_drawn s + 4 * Z.to_nat (ni / 2))
         (raw_drawn s + 2 * Z.to_nat no).
Proof.
  intros H. apply split_rows in H as [HX Hs'].
  set (h := Z.to_nat (ni / 2)) in *. set (k := Z.to_nat no) in *.
  rewrite !fill_rows_gauss_state in HX, Hs'.
  cbn [gauss_tape raw_tape gauss_drawn raw_drawn] in HX, Hs'.
  pose proof (fill_rows_length rk_gauss h s) as L1.
  pose proof (fill_rows_length rk_gauss h
                (mkRandomState (gauss_tape s) (raw_tape s)
                   (gauss_drawn s + 2 * h) (raw_drawn s))) as L2.
  split; [| split; [| split]].
  - intros i Hi. rewrite HX.
    rewrite nth_error_app1 by (rewrite affine_length; lia).
    rewrite (affine_nth _ _ _ _ _ (fill_rows_gauss_nth h s i Hi)).
    reflexivity.
  - intros i Hi. rewrite HX.
    rewrite nth_error_app2 by (rewrite affine_length; lia).
    rewrite affine_length, L1.
    rewrite nth_error_app1 by (rewrite affine_length; lia).
    rewrite (affine_nth _ _ _ _ _ (fill_rows_gauss_nth h _ (i - h) ltac:(lia))).
    cbn [gauss_tape gauss_drawn fst snd].
    replace (gauss_drawn s + 2 * h + 2 * (i - h))%nat
      with (gauss_drawn s + 2 * i)%nat by lia.
    reflexivity.
  - intros j Hj. rewrite HX.
    rewrite nth_error_app2 by (rewrite affine_length; lia).
    rewrite affine_length, L1.
    rewrite nth_error_app2 by (rewrite affine_length; lia).
    rewrite affine_length, L2.
    replace (2 * h + j - h - h)%nat with j by lia.
    rewrite (fill_rows_uniform_nth _ _ k _ j Hj).
    reflexivity.
  - rewrite Hs', fill_rows_uniform_state.
    cbn [gauss_tape raw_tape gauss_drawn raw_drawn]. f_equal. lia.
Qed.

(* ================================================================== *)
(** * The claims *)

(** C1 (the code departs from its docstring).  Asked for 10 training
    points at contamination 0.1, where floor(10 * 0.1) = 1, [generate_data]
    returns, whatever the random source, 9 rows and 9 labels, none of which
    is 1: the odd inlier is dropped by the two halvings and the one outlier
    row is labelled 0. *)
Theorem generate_data_ten_at_one_tenth (n_test : Z) (s : RandomState) :
  exists X y s',
    generate_data 10 n_test (1 # 10) true s = (Ok (Tuple2 X y), s') /\
    Qfloor (inject_Z 10 * (1 # 10)) = 1 /\
    length X = 9%nat /\ length (data y) = 9%nat /\
    count_label 1 y = 0%nat /\ count_label 0 y = 9%nat.
Proof.
  assert (Hi : n_inliers_of 10 (1 # 10) = 9) by reflexivity.
  assert (Ho : n_outliers_of 10 (1 # 10) = 1) by reflexivity.
  destruct (generate_data_run 10 n_test (1 # 10) true s) as (r & s' & H).
  - rewrite Hi, Ho. unfold buildable. cbn. lia.
  - left; reflexivity.
  - destruct (generate_data_Ok _ _ _ _ _ _ _ H) as (s1 & Hs & Hr & _).
    rewrite Hi, Ho in Hs.
    assert (Hb : (0 <= 6)%Q) by (unfold Qle; simpl; lia).
    destruct (split_Ok _ _ _ _ _ _ _ _ Hb Hs) as [_ _ HL _ _ Hy _ _].
    change (2 * Z.to_nat (9 / 2) + Z.to_nat 1)%nat with 9%nat in HL.
    rewrite HL in Hy.
    exists (X_train_of r), (y_train_of r), s'.
    rewrite <- Hr. split; [exact H |].
    split; [reflexivity |]. split; [exact HL |].
    rewrite Hy. repeat split; reflexivity.
Qed.

(** C2 (the code departs from the claim by the slip of C1).  For the 9
    inliers of 10 training points at contamination 0.1 the two sub-clusters
    are drawn, whatever the random source, with 9 // 2 = 4 rows each, from
    16 normal deviates: their sizes sum to 8 and not to 9, and no sample
    goes to the first sub-cluster for the odd one. *)
Theorem inlier_clusters_of_nine (s : RandomState) :
  exists X1 X2 s',
    inlier_clusters (n_inliers_of 10 (1 # 10)) 2 s = (Ok (X1, X2), s') /\
    n_inliers_of 10 (1 # 10) = 9 /\
    length X1 = 4%nat /\ length X2 = 4%nat /\
    Z.of_nat (length X1 + length X2) = n_inliers_of 10 (1 # 10) - 1 /\
    gauss_drawn s' = (gauss_drawn s + 16)%nat.
Proof.
  assert (Hi : n_inliers_of 10 (1 # 10) = 9) by reflexivity.
  rewrite Hi.
  destruct (inlier_clusters_run 9 2 s) as (X1 & X2 & s' & H);
    [cbn; lia |].
  exists X1, X2, s'. split; [exact H |].
  apply inlier_clusters_Ok in H as (_ & L1 & L2 & Hg & _).
  change (Z.to_nat (9 / 2)) with 4%nat in L1, L2, Hg.
  rewrite L1, L2. repeat split; try reflexivity. exact Hg.
Qed.

(** C3, as stated, fails: with no training points asked for, nothing is
    returned; and for 3 training points at contamination 0.1 (3 inliers, no
    outlier) the 2 returned rows carry no label 1, where rows minus inliers
    is -1 and no uniformly drawn row exists. *)
Lemma generate_data_counts_of_zero_and_three :
  fst (generate_data 0 500 (1 # 10) true sample_state) = Raise ValueError /\
  exists X y s',
    generate_data 3 500 (1 # 10) true sample_state = (Ok (Tuple2 X y), s') /\
    n_inliers_of 3 (1 # 10) = 3 /\ n_outliers_of 3 (1 # 10) = 0 /\
    length X = 2%nat /\
    Z.of_nat (count_label 1 y)
    <> Z.of_nat (length X) - n_inliers_of 3 (1 # 10).
Proof.
  split; [vm_compute; reflexivity |].
  eexists. eexists. eexists.
  split; [vm_compute; reflexivity |].
  vm_compute. repeat split; discriminate.
Qed.

(** C3 (amended).  Whenever [generate_data] returns, with
    n_outliers = int(n_train * contamination) and
    n_inliers = n_train - n_outliers: both counts are non-negative, [X_train]
    has exactly 2 * (n_inliers // 2) + n_outliers rows, at least one,
    [y_train] has as many entries, of which exactly
    max(0, rows - n_inliers) are 1 and the others 0; and when [n_inliers] is
    odd the row count is n_train - 1 and, if there is an outlier at all, the
    first uniformly drawn row is labelled 0 and only n_outliers - 1 labels
    are 1. *)
Theorem generate_data_train_counts (n_train n_test : Z) (contamination : Q)
  (train_only : bool) (s : RandomState) (r : generated) (s' : RandomState) :
  generate_data n_train n_test contamination train_only s = (Ok r, s') ->
  let n_outliers := n_outliers_of n_train contamination in
  let n_inliers := n_inliers_of n_train contamination in
  let rows := Z.of_nat (length (X_train_of r)) in
  (0 <= n_outliers /\ 0 <= n_inliers /\ 1 <= rows) /\
  rows = 2 * (n_inliers / 2) + n_outliers /\
  shape (y_train_of r) = [length (X_train_of r)] /\
  length (data (y_train_of r)) = length (X_train_of r) /\
  Z.of_nat (count_label 1 (y_train_of r)) = Z.max 0 (rows - n_inliers) /\
  (count_label 0 (y_train_of r) + count_label 1 (y_train_of r))%nat
  = length (X_train_of r) /\
  (Z.odd n_inliers = true ->
   rows = n_train - 1 /\
   (1 <= n_outliers ->
    nth_error (data (y_train_of r)) (Z.to_nat (2 * (n_inliers / 2)))
    = Some 0%Q /\
    Z.of_nat (count_label 1 (y_train_of r)) = n_outliers - 1)).
Proof.
  intros H no ni rows.
  destruct (generate_data_Ok _ _ _ _ _ _ _ H) as (s1 & Hs & _).
  assert (Hb : (0 <= 6)%Q) by (unfold Qle; simpl; lia).
  destruct (split_Ok _ _ _ _ _ _ _ _ Hb Hs) as [Hd Ho HL Hne _ Hy _ _].
  fold ni in Hd, HL, Hy. fold no in Ho, HL.
  assert (Hni : 0 <= ni).
  { destruct (Z.ltb_spec ni 0) as [Hneg | Hpos]; [| exact Hpos].
    assert (ni / 2 < 0) by (apply Z.div_lt_upper_bound; lia). lia. }
  assert (Hrows : rows = 2 * (ni / 2) + no) by (unfold rows; lia).
  pose proof (slice_start_nonneg ni (length (X_train_of r)) Hni) as Hk.
  pose proof (Z.div_mod ni 2) as Hdm.
  pose proof (Z.mod_pos_bound ni 2) as Hm.
  split; [unfold rows; lia |].
  split; [exact Hrows |].
  rewrite Hy.
  split; [reflexivity |].
  split; [apply labels_from_length |].
  rewrite count_ones_labels, count_zeros_labels.
  split; [unfold rows in *; lia |].
  split; [pose proof (slice_start_le ni (length (X_train_of r))); lia |].
  intros Hodd. apply odd_half in Hodd.
  split; [unfold ni, n_inliers_of in *; fold no in Hodd |- *; lia |].
  intros Hone. split; [| unfold rows in *; lia].
  rewrite labels_nth by lia.
  destruct (Nat.ltb_spec (Z.to_nat (2 * (ni / 2)))
              (Py.slice_start ni (length (X_train_of r)))) as [_ | Hge];
    [reflexivity | lia].
Qed.

Lemma generate_data_train_counts_witness :
  exists r s',
    generate_data 11 6 (1 # 5) false sample_state = (Ok r, s') /\
    Z.of_nat (length (X_train_of r)) = 10 /\
    Z.of_nat (count_label 1 (y_train_of r)) = 1 /\
    nth_error (data (y_train_of r)) 8 = Some 0%Q.
Proof.
  eexists. eexists.
  match goal with
  | |- ?run = ?res /\ _ => assert (H : run = res) by (vm_compute; reflexivity)
  end.
  split; [exact H |].
  pose proof (generate_data_train_counts _ _ _ _ _ _ _ H)
    as (_ & Hrows & _ & _ & _ & _ & Hodd).
  destruct (Hodd eq_refl) as (_ & Hone).
  destruct Hone as (Hnth & Hcount); [vm_compute; discriminate |].
  split; [exact Hrows |]. split; [exact Hcount | exact Hnth].
Defined.

(** C4, as stated, fails: on the labels [0, 0, 1, 1] and the scores
    [0.1, 0.4, 0.35, 0.8] the summary line is printed, but what is returned
    is [None], not that string. *)
Lemma evaluate_print_returns_none :
  snd (evaluate_print "KNN" (array1 [0; 0; 1; 1]%Q)
         (array1 [1 # 10; 4 # 10; 35 # 100; 8 # 10]) [])
  = ["KNN ROC:0.75, precision @ rank n:0.5"%string] /\
  fst (evaluate_print "KNN" (array1 [0; 0; 1; 1]%Q)
         (array1 [1 # 10; 4 # 10; 35 # 100; 8 # 10]) [])
  <> Ok (Py.Str "KNN ROC:0.75, precision @ rank n:0.5").
Proof.
  split; [vm_compute; reflexivity |].
  vm_compute. discriminate.
Qed.

(** C4 (amended).  Given a name and two arrays that [column_or_1d] accepts
    and on which both metrics are defined, [evaluate_print] appends to
    standard output the one line
    "<name> ROC:<auc>, precision @ rank n:<p@n>", each metric written as the
    multiple of 1/10000 nearest to it, and returns [None]. *)
Theorem evaluate_print_prints (clf_name : string) (y y_pred y1 y_pred1 : ndarray)
  (roc prn : Q) (out : list string) :
  column_or_1d y = Ok y1 ->
  column_or_1d y_pred = Ok y_pred1 ->
  roc_auc_score y1 y_pred1 = Ok roc ->
  precision_n_scores y1 y_pred1 = Ok prn ->
  evaluate_print clf_name y y_pred out
  = (Ok Py.None_, out ++ [summary_line clf_name roc prn]) /\
  (- (1 # 2) <= roc * 10000 - inject_Z (round4 roc) <= 1 # 2)%Q /\
  (- (1 # 2) <= prn * 10000 - inject_Z (round4 prn) <= 1 # 2)%Q.
Proof.
  intros Hy Hp Hroc Hprn. split.
  - unfold evaluate_print, bind, lift, ret, print, summary_line.
    rewrite Hy, Hp, Hroc, Hprn. reflexivity.
  - unfold round4. split; apply rint_close.
Qed.

Lemma evaluate_print_prints_witness :
  evaluate_print "KNN" (array1 [0; 0; 1; 1]%Q)
    (mkArr [4; 1]%nat [1 # 10; 4 # 10; 35 # 100; 8 # 10]) ["earlier"%string]
  = (Ok Py.None_,
     ["earlier"%string; "KNN ROC:0.75, precision @ rank n:0.5"%string]).
Proof.
  refine (eq_trans
            (proj1 (evaluate_print_prints "KNN" _ _
                      (array1 [0; 0; 1; 1]%Q)
                      (array1 [1 # 10; 4 # 10; 35 # 100; 8 # 10])
                      (6 # 8) (1 # 2) ["earlier"%string] _ _ _ _)) _);
    vm_compute; reflexivity.
Defined.

(** C5.  Whenever [generate_data] returns, every uniformly drawn row of the
    training split, and with it every row labelled 1, lies in
    [-6, 6] x [-6, 6]; and when a test split is returned its uniformly drawn
    rows and its rows labelled 1 lie in [-8, 8] x [-8, 8].  The bounds hold
    for every random source. *)
Theorem generate_data_outliers_bounded (n_train n_test : Z) (contamination : Q)
  (train_only : bool) (s : RandomState) (r : generated) (s' : RandomState) :
  generate_data n_train n_test contamination train_only s = (Ok r, s') ->
  outliers_within 6 (n_inliers_of n_train contamination)
    (X_train_of r) (y_train_of r) /\
  match r with
  | Tuple2 _ _ => train_only = true
  | Tuple4 _ _ X_test y_test =>
      outliers_within 8 (n_inliers_of n_test contamination) X_test y_test
  end.
Proof.
  intros H.
  destruct (generate_data_Ok _ _ _ _ _ _ _ H) as (s1 & Hs & Hrest).
  assert (H6 : (0 <= 6)%Q) by (unfold Qle; simpl; lia).
  assert (H8 : (0 <= 8)%Q) by (unfold Qle; simpl; lia).
  split.
  - exact (split_post_outliers _ _ _ _ _ _ _ (split_Ok _ _ _ _ _ _ _ _ H6 Hs)).
  - destruct train_only.
    + destruct Hrest as [Hr _]. rewrite Hr. reflexivity.
    + destruct Hrest as (Xt & yt & Ht & Hr). rewrite Hr.
      exact (split_post_outliers _ _ _ _ _ _ _
               (split_Ok _ _ _ _ _ _ _ _ H8 Ht)).
Qed.

Lemma generate_data_outliers_bounded_witness :
  exists X y Xt yt s',
    generate_data 10 7 (3 # 10) false sample_state
    = (Ok (Tuple4 X y Xt yt), s') /\
    outliers_within 6 (n_inliers_of 10 (3 # 10)) X y /\
    outliers_within 8 (n_inliers_of 7 (3 # 10)) Xt yt.
Proof.
  do 5 eexists.
  match goal with
  | |- ?run = ?res /\ _ => assert (H : run = res) by (vm_compute; reflexivity)
  end.
  split; [exact H |].
  exact (generate_data_outliers_bounded _ _ _ _ _ _ _ H).
Defined.

(** C6.  With [train_only] set, a call that returns hands back the 2-tuple
    (X_train, y_train) and nothing else, and that pair is the training
    split: [X_train] holds the 2 * (n_inliers // 2) sub-cluster rows and the
    n_outliers outlier rows, each one the draws of the random source in
    order, [y_train] holds their labels, and both are what a full call
    returns as its training split.  The random source has then given out
    exactly the draws of the training split and none for a test split, and
    the outcome, returned or raised, does not depend on [n_test]. *)
Theorem generate_data_train_only (n_train n_test : Z) (contamination : Q)
  (s : RandomState) (r : generated) (s' : RandomState) :
  generate_data n_train n_test contamination true s = (Ok r, s') ->
  let h := Z.to_nat (n_inliers_of n_train contamination / 2) in
  let k := Z.to_nat (n_outliers_of n_train contamination) in
  let g := fun n => gauss_tape s (gauss_drawn s + n) in
  let u := fun n => double_at s (raw_drawn s + n) in
  (exists X_train y_train,
      r = Tuple2 X_train y_train /\
      length X_train = (2 * h + k)%nat /\ (1 <= length X_train)%nat /\
      (forall i, (i < h)%nat ->
         nth_error X_train i
         = Some (((3 # 10) * g (2 * i)%nat + - (2))%Q,
                 ((3 # 10) * g (2 * i + 1)%nat + - (2))%Q)) /\
      (forall i, (h <= i < 2 * h)%nat ->
         nth_error X_train i
         = Some (((3 # 10) * g (2 * i)%nat + 2)%Q,
                 ((3 # 10) * g (2 * i + 1)%nat + 2)%Q)) /\
      (forall j, (j < k)%nat ->
         nth_error X_train (2 * h + j)
         = Some ((- (6) + (6 - - (6)) * u (2 * j)%nat)%Q,
                 (- (6) + (6 - - (6)) * u (2 * j + 1)%nat)%Q)) /\
      y_train
      = mkArr [length X_train]
          (repeat 0%Q
             (Nat.min (Z.to_nat (n_inliers_of n_train contamination))
                (length X_train))
           ++ repeat 1%Q
                (length X_train
                 - Nat.min (Z.to_nat (n_inliers_of n_train contamination))
                     (length X_train))) /\
      (forall n_test' r' s'',
          generate_data n_train n_test' contamination false s = (Ok r', s'') ->
          X_train_of r' = X_train /\ y_train_of r' = y_train)) /\
  gauss_drawn s'
  = (gauss_drawn s
     + 4 * Z.to_nat (n_inliers_of n_train contamination / 2))%nat /\
  raw_drawn s'
  = (raw_drawn s + 2 * Z.to_nat (n_outliers_of n_train contamination))%nat /\
  gauss_tape s' = gauss_tape s /\ raw_tape s' = raw_tape s /\
  (forall n_test',
      generate_data n_train n_test' contamination true s
      = generate_data n_train n_test contamination true s).
Proof.
  intros H h k g u.
  destruct (generate_data_Ok _ _ _ _ _ _ _ H) as (s1 & Hs & Hr & Hs').
  subst s1.
  assert (H6 : (0 <= 6)%Q) by (unfold Qle; simpl; lia).
  destruct (split_Ok _ _ _ _ _ _ _ _ H6 Hs) as [Hd _ HL Hne _ Hy Hg Hraw].
  destruct (split_row_content _ _ _ _ _ _ _ _ Hs) as (H1 & H2 & H3 & Hst).
  unfold labels_from in Hy.
  rewrite (slice_start_nonneg _ _ (half_nonneg _ Hd)) in Hy.
  split; [| split; [exact Hg | split; [exact Hraw |]]].
  - exists (X_train_of r), (y_train_of r).
    split; [exact Hr |]. split; [exact HL |]. split; [exact Hne |].
    unfold h, k, g, u.
    split; [intros i Hi; rewrite (H1 i Hi), Nat.add_assoc; reflexivity |].
    split; [intros i Hi; rewrite (H2 i Hi), Nat.add_assoc; reflexivity |].
    split; [intros j Hj; rewrite (H3 j Hj), Nat.add_assoc; reflexivity |].
    split; [exact Hy |].
    intros n_test' r' s'' H'.
    destruct (generate_data_Ok _ _ _ _ _ _ _ H') as (s1' & Hs1 & _).
    rewrite Hs in Hs1. inversion Hs1. split; reflexivity.
  - rewrite Hst. split; [reflexivity |]. split; [reflexivity |].
    intros n_test'. rewrite !generate_data_split. reflexivity.
Qed.

Lemma generate_data_train_only_witness :
  exists X y s',
    generate_data 10 500 (3 # 10) true sample_state = (Ok (Tuple2 X y), s') /\
    length X = 9%nat /\
    nth_error X 0
    = Some (((3 # 10) * (-3 # 7) + - (2))%Q, ((3 # 10) * (-2 # 7) + - (2))%Q) /\
    y = mkArr [9%nat] (repeat 0%Q 7 ++ repeat 1%Q 2) /\
    gauss_drawn s' = 12%nat /\ raw_drawn s' = 6%nat.
Proof.
  do 3 eexists.
  match goal with
  | |- ?run = ?res /\ _ => assert (H : run = res) by (vm_compute; reflexivity)
  end.
  split; [exact H |].
  destruct (generate_data_train_only _ _ _ _ _ _ H)
    as ((X & y & Hr & HL & _ & H1 & _ & _ & Hy & _) & Hg & Hraw & _).
  injection Hr as EX Ey. rewrite EX, Ey.
  split; [exact HL |].
  split; [exact (H1 0%nat ltac:(vm_compute; lia)) |].
  split; [rewrite Hy, HL; reflexivity |].
  split; [exact Hg | exact Hraw].
Defined.

(** C7.  When the ground truth holds one class only (all 0, or all 1),
    [evaluate_print] raises: nothing is returned and nothing is printed, so
    no placeholder metric reaches the caller or standard output. *)
Theorem evaluate_print_one_class (clf_name : string) (y y_pred : ndarray)
  (out : list string) :
  Forall (fun l => (l == 0)%Q) (data y) \/
  Forall (fun l => (l == 1)%Q) (data y) ->
  evaluate_print clf_name y y_pred out = (Raise ValueError, out).
Proof.
  intros Hone. unfold evaluate_print, bind, lift.
  rewrite (column_or_1d_shape y).
  destruct (flat_shape (shape y)); [| reflexivity].
  rewrite (column_or_1d_shape y_pred).
  destruct (flat_shape (shape y_pred)); [| reflexivity].
  rewrite roc_auc_score_one_class by exact Hone.
  reflexivity.
Qed.

Lemma evaluate_print_one_class_witness :
  evaluate_print "KNN" (array1 [0; 0; 0]%Q)
    (array1 [1 # 10; 4 # 10; 35 # 100]) ["earlier"%string]
  = (Raise ValueError, ["earlier"%string]).
Proof.
  apply (evaluate_print_one_class "KNN" (array1 [0; 0; 0]%Q)).
  left. simpl. repeat constructor.
Defined.

(** C8.  [_get_color_codes] returns the codes of the flattened labels
    exactly when its input has one dimension or is a column of shape (n, 1);
    for every other shape it raises [ValueError], in particular for a matrix
    with two or more columns. *)
Theorem get_color_codes_shapes :
  (forall y : ndarray,
      _get_color_codes y
      = if flat_shape (shape y) then Ok (map color_of (data y))
        else Raise ValueError) /\
  (forall (n : nat) (l : list Q),
      _get_color_codes (mkArr [n] l) = Ok (map color_of l)) /\
  (forall (n : nat) (l : list Q),
      _get_color_codes (mkArr [n; 1%nat] l) = Ok (map color_of l)) /\
  (forall (n m : nat) (l : list Q),
      _get_color_codes (mkArr [n; S (S m)] l) = Raise ValueError).
Proof.
  assert (Hgen : forall y : ndarray,
             _get_color_codes y
             = if flat_shape (shape y) then Ok (map color_of (data y))
               else Raise ValueError).
  { intros y. unfold _get_color_codes. rewrite column_or_1d_shape.
    destruct (flat_shape (shape y)); [| reflexivity].
    unfold ravel, len. simpl. rewrite paint. reflexivity. }
  split; [exact Hgen |].
  repeat split; intros; rewrite Hgen; reflexivity.
Qed.

(** C9.  On a flat label sequence [_get_color_codes] gives, position by
    position, "r" for a label equal to 1 and "b" for any other label; the
    labels [0, 1, 1, 0] give ["b", "r", "r", "b"]. *)
Theorem get_color_codes_flat :
  (forall l : list Q,
      _get_color_codes (array1 l)
      = Ok (map (fun x => if Qeq_bool x 1 then "r"%string else "b"%string) l)) /\
  _get_color_codes (array1 [0; 1; 1; 0]%Q)
  = Ok ["b"%string; "r"%string; "r"%string; "b"%string].
Proof.
  split; [| reflexivity].
  intros l. unfold _get_color_codes, array1, column_or_1d, ravel, len. simpl.
  rewrite paint. reflexivity.
Qed.

(** C10 (the code departs from the claim by the slip of C1).  For the
    claim's own example, 10 training points at contamination 0.001, the call
    returns 10 rows whose labels are all 0.  For 1 training point at that
    contamination, where floor(1 * 0.001) = 0 as well, the one inlier is
    lost in the two halvings (1 // 2 = 0 rows, twice), the training set is
    empty and the validation rejects it: the call raises [ValueError],
    whatever the random source, [n_test] and [train_only]. *)
Theorem generate_data_one_training_point (n_test : Z) (train_only : bool)
  (s : RandomState) :
  Qfloor (inject_Z 1 * (1 # 1000)) = 0 /\
  generate_data 1 n_test (1 # 1000) train_only s = (Raise ValueError, s) /\
  exists X y s',
    generate_data 10 n_test (1 # 1000) true s = (Ok (Tuple2 X y), s') /\
    Qfloor (inject_Z 10 * (1 # 1000)) = 0 /\
    length X = 10%nat /\ y = mkArr [10%nat] (repeat 0%Q 10).
Proof.
  split; [reflexivity |]. split.
  - rewrite generate_data_split. reflexivity.
  - assert (Hi : n_inliers_of 10 (1 # 1000) = 10) by reflexivity.
    assert (Ho : n_outliers_of 10 (1 # 1000) = 0) by reflexivity.
    destruct (generate_data_run 10 n_test (1 # 1000) true s) as (r & s' & H).
    + rewrite Hi, Ho. unfold buildable. cbn. lia.
    + left; reflexivity.
    + destruct (generate_data_Ok _ _ _ _ _ _ _ H) as (s1 & Hs & Hr & _).
      rewrite Hi, Ho in Hs.
      assert (Hb : (0 <= 6)%Q) by (unfold Qle; simpl; lia).
      destruct (split_Ok _ _ _ _ _ _ _ _ Hb Hs) as [_ _ HL _ _ Hy _ _].
      change (2 * Z.to_nat (10 / 2) + Z.to_nat 0)%nat with 10%nat in HL.
      rewrite HL in Hy.
      exists (X_train_of r), (y_train_of r), s'.
      rewrite <- Hr. split; [exact H |].
      split; [reflexivity |]. split; [exact HL |].
      rewrite Hy. reflexivity.
Qed.

(* ================================================================== *)
(** * Further properties of [generate_data] *)

(** X1.  [generate_data] returns exactly when the training counts are
    non-negative and leave at least one row after the two halvings, and,
    unless [train_only], the test counts do too; in every other case it
    raises. *)
Theorem generate_data_returns_exactly (n_train n_test : Z) (contamination : Q)
  (train_only : bool) (s : RandomState) :
  (exists r s',
      generate_data n_train n_test contamination train_only s = (Ok r, s'))
  <-> buildable (n_inliers_of n_train contamination)
                (n_outliers_of n_train contamination) /\
      (train_only = true \/
       buildable (n_inliers_of n_test contamination)
                 (n_outliers_of n_test contamination)).
Proof.
  assert (H6 : (0 <= 6)%Q) by (unfold Qle; simpl; lia).
  assert (H8 : (0 <= 8)%Q) by (unfold Qle; simpl; lia).
  split.
  - intros (r & s' & H).
    destruct (generate_data_Ok _ _ _ _ _ _ _ H) as (s1 & Hs & Hrest).
    destruct (split_Ok_buildable _ _ _ _ _ _ _ _ H6 Hs) as (Hd & Ho & Hn).
    split; [unfold buildable; auto using half_nonneg |].
    destruct train_only; [left; reflexivity | right].
    destruct Hrest as (Xt & yt & Ht & _).
    destruct (split_Ok_buildable _ _ _ _ _ _ _ _ H8 Ht) as (Hd' & Ho' & Hn').
    unfold buildable; auto using half_nonneg.
  - intros [Htrain Htest]. apply generate_data_run; assumption.
Qed.

(** X2.  For at least two training points and a contamination anywhere in
    [0, 1], and at least two test points unless [train_only],
    [generate_data] returns. *)
Theorem generate_data_valid_inputs (n_train n_test : Z) (contamination : Q)
  (train_only : bool) (s : RandomState) :
  2 <= n_train ->
  (0 <= contamination)%Q -> (contamination <= 1)%Q ->
  train_only = true \/ 2 <= n_test ->
  exists r s',
    generate_data n_train n_test contamination train_only s = (Ok r, s').
Proof.
  intros Hn H0 H1 Ht. apply generate_data_run.
  - apply counts_buildable; assumption.
  - destruct Ht as [Ht | Ht]; [left; exact Ht | right].
    apply counts_buildable; assumption.
Qed.

Lemma generate_data_valid_inputs_witness :
  exists r s', generate_data 2 2 (1 # 2) false sample_state = (Ok r, s').
Proof.
  apply (generate_data_valid_inputs 2 2 (1 # 2) false sample_state).
  - lia.
  - unfold Qle; simpl; lia.
  - unfold Qle; simpl; lia.
  - right. lia.
Defined.

(** X3.  When [n_inliers] is even, a returned training set has exactly
    [n_train] rows, [n_outliers] labels equal to 1 and [n_inliers] labels
    equal to 0; for a non-negative [n_train] and contamination the number of
    ones is floor(n_train * contamination). *)
Theorem generate_data_even_inliers (n_train n_test : Z) (contamination : Q)
  (train_only : bool) (s : RandomState) (r : generated) (s' : RandomState) :
  generate_data n_train n_test contamination train_only s = (Ok r, s') ->
  Z.even (n_inliers_of n_train contamination) = true ->
  Z.of_nat (length (X_train_of r)) = n_train /\
  Z.of_nat (count_label 1 (y_train_of r)) = n_outliers_of n_train contamination /\
  Z.of_nat (count_label 0 (y_train_of r)) = n_inliers_of n_train contamination /\
  (0 <= n_train -> (0 <= contamination)%Q ->
   Z.of_nat (count_label 1 (y_train_of r))
   = Qfloor (inject_Z n_train * contamination)).
Proof.
  intros H Heven.
  destruct (generate_data_Ok _ _ _ _ _ _ _ H) as (s1 & Hs & _).
  assert (H6 : (0 <= 6)%Q) by (unfold Qle; simpl; lia).
  destruct (split_Ok _ _ _ _ _ _ _ _ H6 Hs) as [Hd Ho HL _ _ Hy _ _].
  apply even_half in Heven.
  pose proof (half_nonneg _ Hd) as Hni.
  pose proof (slice_start_nonneg _ (length (X_train_of r)) Hni) as Hk.
  assert (Hrows : Z.of_nat (length (X_train_of r)) = n_train)
    by (unfold n_inliers_of in *; lia).
  assert (Hones : Z.of_nat (count_label 1 (y_train_of r))
                  = n_outliers_of n_train contamination)
    by (rewrite Hy, count_ones_labels; unfold n_inliers_of in *; lia).
  split; [exact Hrows |]. split; [exact Hones |]. split.
  - rewrite Hy, count_zeros_labels. unfold n_inliers_of in *. lia.
  - intros Hn Hc. rewrite Hones. unfold n_outliers_of. apply int_floor.
    apply Qmult_le_0_compat; [| exact Hc].
    unfold Qle; simpl; lia.
Qed.

Lemma generate_data_even_inliers_witness :
  exists r s',
    generate_data 10 6 (1 # 5) true sample_state = (Ok r, s') /\
    Z.of_nat (length (X_train_of r)) = 10 /\
    Z.of_nat (count_label 1 (y_train_of r)) = 2 /\
    Z.of_nat (count_label 0 (y_train_of r)) = 8.
Proof.
  do 2 eexists.
  match goal with
  | |- ?run = ?res /\ _ => assert (H : run = res) by (vm_compute; reflexivity)
  end.
  split; [exact H |].
  destruct (generate_data_even_inliers _ _ _ _ _ _ _ H eq_refl)
    as (Hrows & Hones & Hzeros & _).
  split; [exact Hrows |]. split; [exact Hones | exact Hzeros].
Defined.

(** X4.  The returned training labels are a one-dimensional array as long
    as [X_train]: zeros on the first min(n_inliers, rows) positions and ones
    on all the others. *)
Theorem generate_data_labels_prefix (n_train n_test : Z) (contamination : Q)
  (train_only : bool) (s : RandomState) (r : generated) (s' : RandomState) :
  generate_data n_train n_test contamination train_only s = (Ok r, s') ->
  let rows := length (X_train_of r) in
  let k := Nat.min (Z.to_nat (n_inliers_of n_train contamination)) rows in
  shape (y_train_of r) = [rows] /\
  data (y_train_of r) = repeat 0%Q k ++ repeat 1%Q (rows - k).
Proof.
  intros H rows k.
  destruct (generate_data_Ok _ _ _ _ _ _ _ H) as (s1 & Hs & _).
  assert (H6 : (0 <= 6)%Q) by (unfold Qle; simpl; lia).
  destruct (split_Ok _ _ _ _ _ _ _ _ H6 Hs) as [Hd _ _ _ _ Hy _ _].
  pose proof (slice_start_nonneg _ rows (half_nonneg _ Hd)) as Hk.
  rewrite Hy. unfold labels_from. fold rows. rewrite Hk. fold k.
  split; reflexivity.
Qed.

Lemma generate_data_labels_prefix_witness :
  exists r s',
    generate_data 10 6 (3 # 10) true sample_state = (Ok r, s') /\
    shape (y_train_of r) = [9%nat] /\
    data (y_train_of r) = repeat 0%Q 7 ++ repeat 1%Q 2.
Proof.
  do 2 eexists.
  match goal with
  | |- ?run = ?res /\ _ => assert (H : run = res) by (vm_compute; reflexivity)
  end.
  split; [exact H |].
  exact (generate_data_labels_prefix _ _ _ _ _ _ _ H).
Defined.

(** X5.  The test split of a returned 4-tuple is counted like the training
    split: [X_test] has 2 * (n_inliers_test // 2) + n_outliers_test rows, at
    least one; [y_test] is one-dimensional and as long, zeros first and ones
    after, with max(0, rows - n_inliers_test) ones; and when
    [n_inliers_test] is even there are [n_test] rows and [n_outliers_test]
    ones. *)
Theorem generate_data_test_counts (n_train n_test : Z) (contamination : Q)
  (s : RandomState) (r : generated) (s' : RandomState) :
  generate_data n_train n_test contamination false s = (Ok r, s') ->
  exists X_train y_train X_test y_test,
    r = Tuple4 X_train y_train X_test y_test /\
    let n_out := n_outliers_of n_test contamination in
    let n_in := n_inliers_of n_test contamination in
    let rows := length X_test in
    let k := Nat.min (Z.to_nat n_in) rows in
    Z.of_nat rows = 2 * (n_in / 2) + n_out /\ (1 <= rows)%nat /\
    shape y_test = [rows] /\
    data y_test = repeat 0%Q k ++ repeat 1%Q (rows - k) /\
    Z.of_nat (count_label 1 y_test) = Z.max 0 (Z.of_nat rows - n_in) /\
    (Z.even n_in = true ->
     Z.of_nat rows = n_test /\ Z.of_nat (count_label 1 y_test) = n_out).
Proof.
  intros H.
  destruct (generate_data_Ok _ _ _ _ _ _ _ H) as (s1 & _ & Xt & yt & Ht & Hr).
  exists (X_train_of r), (y_train_of r), Xt, yt.
  split; [exact Hr |].
  intros n_out n_in rows k.
  assert (H8 : (0 <= 8)%Q) by (unfold Qle; simpl; lia).
  destruct (split_Ok _ _ _ _ _ _ _ _ H8 Ht) as [Hd Ho HL Hne _ Hy _ _].
  fold n_in in Hd, HL, Hy. fold n_out in Ho, HL. fold rows in HL, Hne, Hy.
  pose proof (half_nonneg _ Hd) as Hni.
  pose proof (slice_start_nonneg n_in rows Hni) as Hk. fold k in Hk.
  pose proof (Z.div_mod n_in 2) as Hdm.
  pose proof (Z.mod_pos_bound n_in 2) as Hm.
  assert (Hones : count_label 1 yt = (rows - k)%nat)
    by (rewrite Hy, count_ones_labels, Hk; reflexivity).
  split; [lia |]. split; [exact Hne |].
  split; [rewrite Hy; reflexivity |].
  split; [rewrite Hy; unfold labels_from; rewrite Hk; reflexivity |].
  split; [rewrite Hones; lia |].
  intros Heven. apply even_half in Heven.
  unfold n_in, n_inliers_of in *. fold n_out in Heven, Hdm, Hm, Hni, Hd, HL |- *.
  split; [lia | rewrite Hones; lia].
Qed.

Lemma generate_data_test_counts_witness :
  exists X y Xt yt s',
    generate_data 10 7 (3 # 10) false sample_state
    = (Ok (Tuple4 X y Xt yt), s') /\
    length Xt = 6%nat /\ shape yt = [6%nat] /\
    data yt = repeat 0%Q 5 ++ repeat 1%Q 1.
Proof.
  do 5 eexists.
  match goal with
  | |- ?run = ?res /\ _ => assert (H : run = res) by (vm_compute; reflexivity)
  end.
  split; [exact H |].
  destruct (generate_data_test_counts _ _ _ _ _ _ H)
    as (X & y & Xt & yt & Hr & _ & _ & Hshape & Hdata & _).
  inversion Hr; subst.
  split; [reflexivity |]. split; [exact Hshape | exact Hdata].
Defined.

(** X6.  A call that returns leaves the random source with its tapes as they
    were and its counters moved by exactly the draws of the splits it built:
    four normal deviates for each pair of inlier rows and two doubles for
    each outlier row, of the training split and, unless [train_only], of the
    test split. *)
Theorem generate_data_final_state (n_train n_test : Z) (contamination : Q)
  (train_only : bool) (s : RandomState) (r : generated) (s' : RandomState) :
  generate_data n_train n_test contamination train_only s = (Ok r, s') ->
  s' = mkRandomState (gauss_tape s) (raw_tape s)
         (gauss_drawn s
          + 4 * Z.to_nat (n_inliers_of n_train contamination / 2)
          + (if train_only then 0
             else 4 * Z.to_nat (n_inliers_of n_test contamination / 2)))
         (raw_drawn s
          + 2 * Z.to_nat (n_outliers_of n_train contamination)
          + (if train_only then 0
             else 2 * Z.to_nat (n_outliers_of n_test contamination))).
Proof.
  intros H.
  destruct (generate_data_Ok _ _ _ _ _ _ _ H) as (s1 & Hs & Hrest).
  destruct (split_row_content _ _ _ _ _ _ _ _ Hs) as (_ & _ & _ & Hs1).
  destruct train_only.
  - destruct Hrest as [_ Hs']. subst s' s1. f_equal; lia.
  - destruct Hrest as (Xt & yt & Ht & _).
    destruct (split_row_content _ _ _ _ _ _ _ _ Ht) as (_ & _ & _ & Hs').
    subst s' s1. cbn [gauss_tape raw_tape gauss_drawn raw_drawn].
    f_equal; lia.
Qed.

Lemma generate_data_final_state_witness :
  exists r s',
    generate_data 10 7 (3 # 10) false sample_state = (Ok r, s') /\
    gauss_drawn s' = 20%nat /\ raw_drawn s' = 10%nat.
Proof.
  do 2 eexists.
  match goal with
  | |- ?run = ?res /\ _ => assert (H : run = res) by (vm_compute; reflexivity)
  end.
  split; [exact H |].
  rewrite (generate_data_final_state _ _ _ _ _ _ _ H).
  split; reflexivity.
Defined.

(** X7.  The rows of a returned training set are the draws of the random
    source, in order: row [i] of the first sub-cluster is 0.3 times the
    normal deviates [2 i] and [2 i + 1] minus 2, row [i] of the second is
    0.3 times the deviates [2 i] and [2 i + 1] plus 2, and outlier row [j]
    is -6 plus 12 times the doubles [2 j] and [2 j + 1]. *)
Theorem generate_data_train_rows (n_train n_test : Z) (contamination : Q)
  (train_only : bool) (s : RandomState) (r : generated) (s' : RandomState) :
  generate_data n_train n_test contamination train_only s = (Ok r, s') ->
  let h := Z.to_nat (n_inliers_of n_train contamination / 2) in
  let g := fun n => gauss_tape s (gauss_drawn s + n) in
  let u := fun n => double_at s (raw_drawn s + n) in
  (forall i, (i < h)%nat ->
     nth_error (X_train_of r) i
     = Some (((3 # 10) * g (2 * i)%nat + - (2))%Q,
             ((3 # 10) * g (2 * i + 1)%nat + - (2))%Q)) /\
  (forall i, (h <= i < 2 * h)%nat ->
     nth_error (X_train_of r) i
     = Some (((3 # 10) * g (2 * i)%nat + 2)%Q,
             ((3 # 10) * g (2 * i + 1)%nat + 2)%Q)) /\
  (forall j, (j < Z.to_nat (n_outliers_of n_train contamination))%nat ->
     nth_error (X_train_of r) (2 * h + j)
     = Some ((- (6) + (6 - - (6)) * u (2 * j)%nat)%Q,
             (- (6) + (6 - - (6)) * u (2 * j + 1)%nat)%Q)).
Proof.
  intros H h g u.
  destruct (generate_data_Ok _ _ _ _ _ _ _ H) as (s1 & Hs & _).
  destruct (split_row_content _ _ _ _ _ _ _ _ Hs) as (H1 & H2 & H3 & _).
  unfold h, g, u. repeat split; intros i Hi.
  - rewrite (H1 i Hi). rewrite Nat.add_assoc. reflexivity.
  - rewrite (H2 i Hi). rewrite Nat.add_assoc. reflexivity.
  - rewrite (H3 i Hi). rewrite Nat.add_assoc. reflexivity.
Qed.

Lemma generate_data_train_rows_witness :
  exists r s',
    generate_data 5 7 (1 # 5) true sample_state = (Ok r, s') /\
    nth_error (X_train_of r) 0
    = Some (((3 # 10) * (-3 # 7) + - (2))%Q, ((3 # 10) * (-2 # 7) + - (2))%Q) /\
    nth_error (X_train_of r) 2
    = Some (((3 # 10) * (1 # 7) + 2)%Q, ((3 # 10) * (2 # 7) + 2)%Q).
Proof.
  do 2 eexists.
  match goal with
  | |- ?run = ?res /\ _ => assert (H : run = res) by (vm_compute; reflexivity)
  end.
  split; [exact H |].
  destruct (generate_data_train_rows _ _ _ _ _ _ _ H) as (H1 & H2 & _).
  split.
  - exact (H1 0%nat ltac:(vm_compute; lia)).
  - exact (H2 2%nat ltac:(vm_compute; lia)).
Defined.

(** X8.  The test split of a returned 4-tuple is drawn after the training
    split, from draws the training split did not use: its rows hold the
    normal deviates that follow the 4 * (n_inliers // 2) deviates of the
    training split, scaled and shifted as there, and its outlier rows hold
    the doubles that follow the 2 * n_outliers doubles of the training
    split, stretched over [-8, 8). *)
Theorem generate_data_test_rows (n_train n_test : Z) (contamination : Q)
  (s : RandomState) (r : generated) (s' : RandomState) :
  generate_data n_train n_test contamination false s = (Ok r, s') ->
  exists X_train y_train X_test y_test,
    r = Tuple4 X_train y_train X_test y_test /\
    let h := Z.to_nat (n_inliers_of n_train contamination / 2) in
    let k := Z.to_nat (n_outliers_of n_train contamination) in
    let ht := Z.to_nat (n_inliers_of n_test contamination / 2) in
    let g := fun n => gauss_tape s (gauss_drawn s + 4 * h + n) in
    let u := fun n => double_at s (raw_drawn s + 2 * k + n) in
    (forall i, (i < ht)%nat ->
       nth_error X_test i
       = Some (((3 # 10) * g (2 * i)%nat + - (2))%Q,
               ((3 # 10) * g (2 * i + 1)%nat + - (2))%Q)) /\
    (forall i, (ht <= i < 2 * ht)%nat ->
       nth_error X_test i
       = Some (((3 # 10) * g (2 * i)%nat + 2)%Q,
               ((3 # 10) * g (2 * i + 1)%nat + 2)%Q)) /\
    (forall j, (j < Z.to_nat (n_outliers_of n_test contamination))%nat ->
       nth_error X_test (2 * ht + j)
       = Some ((- (8) + (8 - - (8)) * u (2 * j)%nat)%Q,
               (- (8) + (8 - - (8)) * u (2 * j + 1)%nat)%Q)).
Proof.
  intros H.
  destruct (generate_data_Ok _ _ _ _ _ _ _ H) as (s1 & Hs & Xt & yt & Ht & Hr).
  exists (X_train_of r), (y_train_of r), Xt, yt.
  split; [exact Hr |].
  intros h k ht g u.
  destruct (split_row_content _ _ _ _ _ _ _ _ Hs) as (_ & _ & _ & Hs1).
  destruct (split_row_content _ _ _ _ _ _ _ _ Ht) as (H1 & H2 & H3 & _).
  subst s1. cbn [gauss_tape raw_tape gauss_drawn raw_drawn] in H1, H2, H3.
  unfold double_at in H3. cbn [raw_tape] in H3.
  unfold h, k, ht, g, u, double_at. repeat split; intros i Hi.
  - rewrite (H1 i Hi). rewrite !Nat.add_assoc. reflexivity.
  - rewrite (H2 i Hi). rewrite !Nat.add_assoc. reflexivity.
  - rewrite (H3 i Hi). rewrite !Nat.add_assoc. reflexivity.
Qed.

Lemma generate_data_test_rows_witness :
  exists X y Xt yt s',
    generate_data 5 4 (1 # 4) false sample_state
    = (Ok (Tuple4 X y Xt yt), s') /\
    nth_error Xt 0
    = Some (((3 # 10) * (5 # 7) + - (2))%Q, ((3 # 10) * (6 # 7) + - (2))%Q).
Proof.
  do 5 eexists.
  match goal with
  | |- ?run = ?res /\ _ => assert (H : run = res) by (vm_compute; reflexivity)
  end.
  split; [exact H |].
  destruct (generate_data_test_rows _ _ _ _ _ _ H)
    as (X & y & Xt & yt & Hr & H1 & _).
  inversion Hr; subst.
  exact (H1 0%nat ltac:(vm_compute; lia)).
Defined.

(** X9.  When the outlier count is negative (a contamination of -1/n_train
    or less) while the inlier count is not, the call raises [ValueError] at
    the uniform draw, after the normal deviates of both sub-clusters have
    already been taken from the random source. *)
Theorem generate_data_negative_outliers (n_train n_test : Z)
  (contamination : Q) (train_only : bool) (s : RandomState) :
  0 <= n_inliers_of n_train contamination ->
  n_outliers_of n_train contamination < 0 ->
  generate_data n_train n_test contamination train_only s
  = (Raise ValueError,
     mkRandomState (gauss_tape s) (raw_tape s)
       (gauss_drawn s + 4 * Z.to_nat (n_inliers_of n_train contamination / 2))
       (raw_drawn s)).
Proof.
  intros Hi Ho. rewrite generate_data_split.
  unfold bind, split, inlier_clusters, bind, randn, uniform, ret, Py.floordiv.
  assert (Hd : 0 <= n_inliers_of n_train contamination / 2)
    by (apply Z.div_pos; lia).
  destruct (Z.ltb_spec (n_inliers_of n_train contamination / 2) 0)
    as [Hneg | _]; [lia |].
  pose proof (fill_rows_gauss_state
                (Z.to_nat (n_inliers_of n_train contamination / 2)) s) as E1.
  destruct (fill_rows rk_gauss _ s) as [G1 s1]. simpl in E1. subst s1.
  pose proof (fill_rows_gauss_state
                (Z.to_nat (n_inliers_of n_train contamination / 2))
                (mkRandomState (gauss_tape s) (raw_tape s)
                   (gauss_drawn s
                    + 2 * Z.to_nat (n_inliers_of n_train contamination / 2))
                   (raw_drawn s))) as E2.
  destruct (fill_rows rk_gauss _ _) as [G2 s2]. simpl in E2. subst s2.
  destruct (Z.ltb_spec (n_outliers_of n_train contamination) 0)
    as [_ | Hpos]; [| lia].
  f_equal. f_equal. lia.
Qed.

Lemma generate_data_negative_outliers_witness :
  generate_data 10 500 (-3 # 10) false sample_state
  = (Raise ValueError,
     mkRandomState (gauss_tape sample_state) (raw_tape sample_state) 24 0).
Proof.
  apply (generate_data_negative_outliers 10 500 (-3 # 10) false sample_state).
  - vm_compute. discriminate.
  - vm_compute. reflexivity.
Defined.

(** X10.  When the inlier count is negative (a contamination above 1), or
    when there is no outlier and at most one inlier, the call raises
    [ValueError] without having taken anything from the random source. *)
Theorem generate_data_nothing_drawn (n_train n_test : Z) (contamination : Q)
  (train_only : bool) (s : RandomState) :
  n_inliers_of n_train contamination < 0 \/
  (n_inliers_of n_train contamination <= 1 /\
   n_outliers_of n_train contamination = 0) ->
  generate_data n_train n_test contamination train_only s
  = (Raise ValueError, s).
Proof.
  intros Hcase. rewrite generate_data_split.
  unfold bind, split, inlier_clusters, bind, randn, uniform, ret, lift,
    Py.floordiv.
  destruct (Z.ltb_spec (n_inliers_of n_train contamination / 2) 0)
    as [Hneg | Hd]; [reflexivity |].
  pose proof (half_nonneg _ Hd) as Hni.
  destruct Hcase as [Hlt | [Hle Ho]]; [lia |].
  assert (Hz : n_inliers_of n_train contamination / 2 = 0)
    by (apply Z.div_small; lia).
  rewrite Hz, Ho. reflexivity.
Qed.

Lemma generate_data_nothing_drawn_witness :
  generate_data 1 500 (1 # 10) false sample_state
  = (Raise ValueError, sample_state).
Proof.
  apply (generate_data_nothing_drawn 1 500 (1 # 10) false sample_state).
  right. split; [vm_compute; discriminate | vm_compute; reflexivity].
Defined.

(** X11.  The training data of a full call is what a [train_only] call gives
    from the same random source, whatever the [n_test] of either: the test
    split has no influence on the training split. *)
Theorem generate_data_train_split_same (n_train n_test n_test' : Z)
  (contamination : Q) (s : RandomState) (r : generated) (s' : RandomState) :
  generate_data n_train n_test contamination false s = (Ok r, s') ->
  exists s1,
    generate_data n_train n_test' contamination true s
    = (Ok (Tuple2 (X_train_of r) (y_train_of r)), s1).
Proof.
  intros H.
  destruct (generate_data_Ok _ _ _ _ _ _ _ H) as (s1 & Hs & _).
  exists s1. rewrite generate_data_split.
  rewrite (bind_run _ _ _ _ _ Hs). reflexivity.
Qed.

Lemma generate_data_train_split_same_witness :
  exists r s' s1,
    generate_data 5 4 (1 # 4) false sample_state = (Ok r, s') /\
    generate_data 5 9 (1 # 4) true sample_state
    = (Ok (Tuple2 (X_train_of r) (y_train_of r)), s1).
Proof.
  do 2 eexists.
  match goal with
  | |- exists s1, ?run = ?res /\ _ =>
      assert (H : run = res) by (vm_compute; reflexivity)
  end.
  destruct (generate_data_train_split_same 5 4 9 _ _ _ _ H) as (s1 & H1).
  exists s1. split; [exact H | exact H1].
Defined.

(* ================================================================== *)
(** * Further properties of [_get_color_codes] *)

Lemma color_codes_eq (y : ndarray) :
  _get_color_codes y
  = if flat_shape (shape y) then Ok (map color_of (data y))
    else Raise ValueError.
Proof.
  unfold _get_color_codes. rewrite column_or_1d_shape.
  destruct (flat_shape (shape y)); [| reflexivity].
  unfold ravel, len. simpl. rewrite paint. reflexivity.
Qed.

Lemma count_red (l : list Q) :
  count_occ string_dec (map color_of l) "r"%string
  = length (filter (is_label 1) l).
Proof.
  induction l as [| x l IH]; [reflexivity |].
  cbn [map filter]. unfold color_of at 1, is_label at 1.
  destruct (Qeq_bool x 1).
  - rewrite count_occ_cons_eq by reflexivity. simpl. now rewrite IH.
  - rewrite count_occ_cons_neq by discriminate. exact IH.
Qed.

Lemma count_blue (l : list Q) :
  count_occ string_dec (map color_of l) "b"%string
  = length (filter (fun x => negb (is_label 1 x)) l).
Proof.
  induction l as [| x l IH]; [reflexivity |].
  cbn [map filter]. unfold color_of at 1, is_label at 1.
  destruct (Qeq_bool x 1).
  - rewrite count_occ_cons_neq by discriminate. exact IH.
  - rewrite count_occ_cons_eq by reflexivity. simpl. now rewrite IH.
Qed.

(** X12.  The codes [_get_color_codes] returns are as many as the labels;
    each is "r" or "b"; there are as many "r" as labels equal to 1 and as
    many "b" as other labels. *)
Theorem get_color_codes_counts (y : ndarray) (codes : list string) :
  _get_color_codes y = Ok codes ->
  length codes = length (data y) /\
  Forall (fun c => c = "r"%string \/ c = "b"%string) codes /\
  count_occ string_dec codes "r"%string = count_label 1 y /\
  (count_occ string_dec codes "b"%string + count_label 1 y)%nat
  = length (data y).
Proof.
  rewrite color_codes_eq.
  destruct (flat_shape (shape y)); [| discriminate].
  intros H. inversion H; subst codes. clear H.
  split; [apply length_map |]. split.
  - apply Forall_forall. intros c Hc.
    apply in_map_iff in Hc as (x & Hx & _). subst c.
    unfold color_of. destruct (Qeq_bool x 1); auto.
  - rewrite count_red, count_blue. unfold count_label.
    split; [reflexivity |].
    induction (data y) as [| x l IH]; [reflexivity |].
    simpl. destruct (is_label 1 x); simpl; lia.
Qed.

Lemma get_color_codes_counts_witness :
  exists codes,
    _get_color_codes (mkArr [5; 1]%nat [0; 1; 2; 1; 0]%Q) = Ok codes /\
    length codes = 5%nat /\
    count_occ string_dec codes "r"%string = 2%nat.
Proof.
  eexists.
  match goal with
  | |- ?run = ?res /\ _ => assert (H : run = res) by (vm_compute; reflexivity)
  end.
  split; [exact H |].
  destruct (get_color_codes_counts _ _ H) as (Hlen & _ & Hred & _).
  split; [exact Hlen | exact Hred].
Defined.

(** X13.  The labels [generate_data] returns are accepted by
    [_get_color_codes], which paints the first min(n_inliers, rows) samples
    "b" and all the others "r". *)
Theorem get_color_codes_of_generated (n_train n_test : Z) (contamination : Q)
  (train_only : bool) (s : RandomState) (r : generated) (s' : RandomState) :
  generate_data n_train n_test contamination train_only s = (Ok r, s') ->
  let rows := length (X_train_of r) in
  let k := Nat.min (Z.to_nat (n_inliers_of n_train contamination)) rows in
  _get_color_codes (y_train_of r)
  = Ok (repeat "b"%string k ++ repeat "r"%string (rows - k)).
Proof.
  intros H rows k.
  destruct (generate_data_Ok _ _ _ _ _ _ _ H) as (s1 & Hs & _).
  assert (H6 : (0 <= 6)%Q) by (unfold Qle; simpl; lia).
  destruct (split_Ok _ _ _ _ _ _ _ _ H6 Hs) as [Hd _ _ _ _ Hy _ _].
  pose proof (slice_start_nonneg _ rows (half_nonneg _ Hd)) as Hk.
  rewrite color_codes_eq, Hy. unfold labels_from. fold rows.
  rewrite Hk. fold k. simpl.
  rewrite map_app, !map_repeat. reflexivity.
Qed.

Lemma get_color_codes_of_generated_witness :
  exists r s',
    generate_data 10 6 (3 # 10) true sample_state = (Ok r, s') /\
    _get_color_codes (y_train_of r)
    = Ok (repeat "b"%string 7 ++ repeat "r"%string 2).
Proof.
  do 2 eexists.
  match goal with
  | |- ?run = ?res /\ _ => assert (H : run = res) by (vm_compute; reflexivity)
  end.
  split; [exact H |].
  exact (get_color_codes_of_generated _ _ _ _ _ _ _ H).
Defined.

(* ================================================================== *)
(** * Further properties of [evaluate_print] *)

(** X14.  When the ground truth or the scores are neither one-dimensional
    nor a single column, [evaluate_print] raises [ValueError] and prints
    nothing. *)
Theorem evaluate_print_bad_shape (clf_name : string) (y y_pred : ndarray)
  (out : list string) :
  flat_shape (shape y) = false \/ flat_shape (shape y_pred) = false ->
  evaluate_print clf_name y y_pred out = (Raise ValueError, out).
Proof.
  intros Hbad. unfold evaluate_print, bind, lift.
  rewrite (column_or_1d_shape y).
  destruct (flat_shape (shape y)); [| reflexivity].
  rewrite (column_or_1d_shape y_pred).
  destruct Hbad as [Hy | Hp]; [discriminate Hy |].
  rewrite Hp. reflexivity.
Qed.

Lemma evaluate_print_bad_shape_witness :
  evaluate_print "KNN" (array1 [0; 1]%Q)
    (mkArr [2; 2]%nat [1 # 10; 9 # 10; 8 # 10; 2 # 10]) ["earlier"%string]
  = (Raise ValueError, ["earlier"%string]).
Proof.
  apply (evaluate_print_bad_shape "KNN").
  right. reflexivity.
Defined.

(** X15.  A call of [evaluate_print] has one of two outcomes: it returns
    [None] having appended exactly one line to standard output, or it raises
    [ValueError] having printed nothing; what was printed before is never
    altered. *)
Theorem evaluate_print_outcomes (clf_name : string) (y y_pred : ndarray)
  (out : list string) :
  (exists line,
      evaluate_print clf_name y y_pred out = (Ok Py.None_, out ++ [line])) \/
  evaluate_print clf_name y y_pred out = (Raise ValueError, out).
Proof.
  unfold evaluate_print, bind, lift, print, ret.
  destruct (column_or_1d y) as [y1 | []]; [| right; reflexivity].
  destruct (column_or_1d y_pred) as [p1 | []]; [| right; reflexivity].
  destruct (roc_auc_score y1 p1) as [roc | []]; [| right; reflexivity].
  destruct (precision_n_scores y1 p1) as [prn | []]; [| right; reflexivity].
  left. eexists. reflexivity.
Qed.

(** X16.  [evaluate_print] looks at the elements of its arrays only: two
    ground truths, and two score arrays, of accepted shapes and with the
    same elements give the same outcome, so a column of shape (n, 1) is
    treated as the flat array. *)
Theorem evaluate_print_shape_blind (clf_name : string)
  (y y' y_pred y_pred' : ndarray) (out : list string) :
  flat_shape (shape y) = true -> flat_shape (shape y') = true ->
  flat_shape (shape y_pred) = true -> flat_shape (shape y_pred') = true ->
  data y = data y' -> data y_pred = data y_pred' ->
  evaluate_print clf_name y y_pred out
  = evaluate_print clf_name y' y_pred' out.
Proof.
  intros Hy Hy' Hp Hp' Ey Ep. unfold evaluate_print, bind, lift.
  rewrite !column_or_1d_shape, Hy, Hy', Hp, Hp'.
  unfold ravel. rewrite Ey, Ep. reflexivity.
Qed.

Lemma evaluate_print_shape_blind_witness :
  evaluate_print "KNN" (mkArr [4; 1]%nat [0; 0; 1; 1]%Q)
    (mkArr [4; 1]%nat [1 # 10; 4 # 10; 35 # 100; 8 # 10]) []
  = evaluate_print "KNN" (array1 [0; 0; 1; 1]%Q)
      (array1 [1 # 10; 4 # 10; 35 # 100; 8 # 10]) [].
Proof.
  apply (evaluate_print_shape_blind "KNN"); reflexivity.
Defined.

(* ================================================================== *)
(** * Properties of [visualize] *)

(** The calls [visualize] records when both label arrays are accepted. *)
Lemma visualize_flat (clf_name : string)
  (X_train : list (Q * Q)) (y_train : ndarray)
  (X_test : list (Q * Q)) (y_test : ndarray)
  (y_train_pred y_test_pred : ndarray) (show_figure save_figure : bool)
  (log : list plt_call) :
  flat_shape (shape y_train) = true -> flat_shape (shape y_test) = true ->
  exists body,
    visualize clf_name X_train y_train X_test y_test y_train_pred y_test_pred
      show_figure save_figure log
    = (Ok Py.None_,
       log ++ body
       ++ (if save_figure then [Savefig (clf_name ++ ".png")%string 300]
           else [])
       ++ (if show_figure then [Show] else [])) /\
    filter is_output body = [] /\
    filter is_scatter body
    = [Scatter (column0 X_train) (column1 X_train)
         (Codes (map color_of (data y_train)));
       Scatter (column0 X_test) (column1 X_test)
         (Codes (map color_of (data y_test)));
       Scatter (column0 X_train) (column1 X_train) (Values y_train_pred);
       Scatter (column0 X_test) (column1 X_test) (Values y_test_pred)] /\
    hd_error body = Some (Figure 12 10).
Proof.
  intros Hy Ht.
  exists [Figure 12 10;
          Suptitle ("Demo of " ++ clf_name)%string;
          AddSubplot 221;
          Scatter (column0 X_train) (column1 X_train)
            (Codes (map color_of (data y_train)));
          Title "Train ground truth";
          Legend [mkLine2D [0] [0] "o" "w" "normal" "b" 8;
                  mkLine2D [0] [0] "o" "w" "outlier" "r" 8] 4;
          AddSubplot 222;
          Scatter (column0 X_test) (column1 X_test)
            (Codes (map color_of (data y_test)));
          Title "Test ground truth";
          Legend [mkLine2D [0] [0] "o" "w" "normal" "b" 8;
                  mkLine2D [0] [0] "o" "w" "outlier" "r" 8] 4;
          AddSubplot 223;
          Scatter (column0 X_train) (column1 X_train) (Values y_train_pred);
          Title ("Train prediction by " ++ clf_name)%string;
          Legend [mkLine2D [0] [0] "o" "w" "normal" "0" 8;
                  mkLine2D [0] [0] "o" "w" "outlier" "yellow" 8] 4;
          AddSubplot 224;
          Scatter (column0 X_test) (column1 X_test) (Values y_test_pred);
          Title ("Test prediction by " ++ clf_name)%string;
          Legend [mkLine2D [0] [0] "o" "w" "normal" "0" 8;
                  mkLine2D [0] [0] "o" "w" "outlier" "yellow" 8] 4].
  split; [| repeat split; reflexivity].
  unfold visualize, bind, lift, plt, ret.
  rewrite !color_codes_eq, Hy, Ht.
  destruct save_figure, show_figure; cbv beta iota;
    repeat rewrite <- app_assoc; reflexivity.
Qed.

(** X17.  When the training or the test labels are neither one-dimensional
    nor a single column, [visualize] raises [ValueError] before any charting
    call: no figure is created, nothing is saved and nothing is shown. *)
Theorem visualize_bad_labels (clf_name : string)
  (X_train : list (Q * Q)) (y_train : ndarray)
  (X_test : list (Q * Q)) (y_test : ndarray)
  (y_train_pred y_test_pred : ndarray) (show_figure save_figure : bool)
  (log : list plt_call) :
  flat_shape (shape y_train) = false \/ flat_shape (shape y_test) = false ->
  visualize clf_name X_train y_train X_test y_test y_train_pred y_test_pred
    show_figure save_figure log
  = (Raise ValueError, log).
Proof.
  intros Hbad. unfold visualize, bind, lift.
  rewrite (color_codes_eq y_train).
  destruct (flat_shape (shape y_train)); [| reflexivity].
  rewrite (color_codes_eq y_test).
  destruct Hbad as [Hy | Ht]; [discriminate Hy |].
  rewrite Ht. reflexivity.
Qed.

Lemma visualize_bad_labels_witness :
  visualize "KNN" [(0, 0); (1, 1)]%Q (array1 [0; 1]%Q)
    [(0, 0); (1, 1)]%Q (mkArr [1; 2]%nat [0; 1]%Q)
    (array1 [1 # 10; 9 # 10]) (array1 [1 # 10; 9 # 10]) true true []
  = (Raise ValueError, []).
Proof.
  apply (visualize_bad_labels "KNN").
  right. reflexivity.
Defined.

(** X18.  With accepted labels, and the charting calls taken to succeed,
    [visualize] returns [None]; of the calls it adds to the figure log, one
    saves the figure exactly when [save_figure] is set, to the file
    "<clf_name>.png" at 300 dpi, one shows it exactly when [show_figure] is
    set, and the saving comes before the showing and after everything
    else. *)
Theorem visualize_outputs (clf_name : string)
  (X_train : list (Q * Q)) (y_train : ndarray)
  (X_test : list (Q * Q)) (y_test : ndarray)
  (y_train_pred y_test_pred : ndarray) (show_figure save_figure : bool)
  (log : list plt_call) :
  flat_shape (shape y_train) = true -> flat_shape (shape y_test) = true ->
  exists body,
    visualize clf_name X_train y_train X_test y_test y_train_pred y_test_pred
      show_figure save_figure log
    = (Ok Py.None_,
       log ++ body
       ++ (if save_figure then [Savefig (clf_name ++ ".png")%string 300]
           else [])
       ++ (if show_figure then [Show] else [])) /\
    filter is_output body = [].
Proof.
  intros Hy Ht.
  destruct (visualize_flat clf_name X_train y_train X_test y_test
              y_train_pred y_test_pred show_figure save_figure log Hy Ht)
    as (body & Hrun & Hout & _).
  exists body. split; assumption.
Qed.

Lemma visualize_outputs_witness :
  exists body,
    visualize "KNN" [(0, 0); (1, 1)]%Q (array1 [0; 1]%Q)
      [(2, 2)]%Q (mkArr [1; 1]%nat [1]%Q)
      (array1 [1 # 10; 9 # 10]) (array1 [1 # 2]) false true []
    = (Ok Py.None_, [] ++ body ++ [Savefig "KNN.png" 300] ++ []) /\
    filter is_output body = [].
Proof.
  apply (visualize_outputs "KNN" [(0, 0); (1, 1)]%Q (array1 [0; 1]%Q)
           [(2, 2)]%Q (mkArr [1; 1]%nat [1]%Q)
           (array1 [1 # 10; 9 # 10]) (array1 [1 # 2]) false true []);
    reflexivity.
Defined.

(** X19.  With accepted labels, [visualize] makes exactly four scatter
    calls, in this order: the training samples coloured by the codes of
    [y_train] ("r" where the label is 1, "b" elsewhere), the test samples
    coloured by the codes of [y_test], the training samples coloured by
    [y_train_pred], and the test samples coloured by [y_test_pred]; the
    first call of all creates the 12 by 10 figure. *)
Theorem visualize_scatters (clf_name : string)
  (X_train : list (Q * Q)) (y_train : ndarray)
  (X_test : list (Q * Q)) (y_test : ndarray)
  (y_train_pred y_test_pred : ndarray) (show_figure save_figure : bool)
  (log : list plt_call) :
  flat_shape (shape y_train) = true -> flat_shape (shape y_test) = true ->
  exists added,
    snd (visualize clf_name X_train y_train X_test y_test
           y_train_pred y_test_pred show_figure save_figure log)
    = log ++ added /\
    hd_error added = Some (Figure 12 10) /\
    filter is_scatter added
    = [Scatter (column0 X_train) (column1 X_train)
         (Codes (map color_of (data y_train)));
       Scatter (column0 X_test) (column1 X_test)
         (Codes (map color_of (data y_test)));
       Scatter (column0 X_train) (column1 X_train) (Values y_train_pred);
       Scatter (column0 X_test) (column1 X_test) (Values y_test_pred)].
Proof.
  intros Hy Ht.
  destruct (visualize_flat clf_name X_train y_train X_test y_test
              y_train_pred y_test_pred show_figure save_figure log Hy Ht)
    as (body & Hrun & _ & Hsc & Hhd).
  eexists. rewrite Hrun. split; [reflexivity |]. split.
  - destruct body as [| c body]; [discriminate Hhd | exact Hhd].
  - rewrite filter_app, Hsc.
    destruct save_figure, show_figure; reflexivity.
Qed.

Lemma visualize_scatters_witness :
  exists added,
    snd (visualize "KNN" [(0, 0); (1, 1)]%Q (array1 [0; 1]%Q)
           [(2, 2)]%Q (mkArr [1; 1]%nat [1]%Q)
           (array1 [1 # 10; 9 # 10]) (array1 [1 # 2]) true false [])
    = [] ++ added /\
    hd_error added = Some (Figure 12 10) /\
    filter is_scatter added
    = [Scatter [0; 1]%Q [0; 1]%Q (Codes ["b"%string; "r"%string]);
       Scatter [2]%Q [2]%Q (Codes ["r"%string]);
       Scatter [0; 1]%Q [0; 1]%Q (Values (array1 [1 # 10; 9 # 10]));
       Scatter [2]%Q [2]%Q (Values (array1 [1 # 2]))].
Proof.
  apply (visualize_scatters "KNN" [(0, 0); (1, 1)]%Q (array1 [0; 1]%Q)
           [(2, 2)]%Q (mkArr [1; 1]%nat [1]%Q)
           (array1 [1 # 10; 9 # 10]) (array1 [1 # 2]) true false []);
    reflexivity.
Defined.
